(* ===== verification/_CoqProject ===== *)
-Q . S2P
Prelude.v
PyStr.v
PyEff.v
Systemctl.v
Discovery.v
Scale.v
Control.v
Main.v
RefHost.v
Scenarios.v
