(* ===== verification/Prelude.v ===== *)
(** * sdmpm in Rocq: a verification development of the systemd multi-process manager

    The program (src/src/sdmpm.py, one Python module) scales a templated
    systemd service [svc@.service] to a wanted number of numbered instances
    ([svc@1.service], [svc@2.service], ...) and runs lifecycle commands over
    all instances of a template.  Its parts, and how they interact:
    - the [systemctl] wrapper (lines 41-55) runs [systemctl] as a subprocess
      and raises on a non-zero exit code (class [SystemctlException], lines
      32-38);
    - discovery: [get_active_units] (58-73) queries [list-unit-files] and
      [list-units] and parses the output; [get_enabled_units] (76-87) lists
      the scope's [multi-user.target.wants] directory;
    - the reconciler [scale_service] (90-118) parses the instance numbers,
      compares counts and issues one [enable|disable --quiet --now];
    - the dispatchers [control_active_units] (121-129, with fallback to the
      enabled units) and [control_units] (132-135);
    - [main] (138-177) dispatches the sub-command and maps exceptions to exit
      statuses.
    All of them call [systemctl] sequentially; the only state is the external
    system's.

    Layout (files in dependency order; each opens with its own summary):
    - [Prelude]: imports (stdpp, ZArith), the [sdmpm] and [sdmpm_rw] hint
      databases, the tactics [invc] and [range_set_solver], and the generic
      lemmas on [merge_sort] (uniqueness of the sorted permutation), [seqZ]
      ranges as [gset]s, string append and lists.
    - [PyStr] (Module [PyStr]): the CPython string built-ins the code uses,
      as executable functions: [str.split()], [str.split(c)],
      [str.splitlines()], [str.strip()], [startswith], [int(s)], [str(n)],
      [repr], [join], [sorted].  Theorem: [int(str(n)) = n].
    - [PyEff] (Module [PyEff]): Python's exceptions ([exc]), the [Host]
      typeclass (the interface to the external system: run a process, list a
      directory, the home directory), the [world] (host, terminal output,
      the argument vectors of the processes started) and the state/error
      monad [PyM] with its notation [x <- m ;; k] in [sdmpm_scope],
      [try/except] ([py_catch]), and the predicate [raises_only] with its
      compositional lemmas and the tactic [raises_only_tac].
    - [Systemctl]: [systemctl] and [systemctl_exception] over any [Host].
    - [Discovery]: [get_active_units], [get_enabled_units].
    - [Scale]: [scale_service] with its pure steps ([unit_number],
      [scale_plan], [service_num_strs], [action_args]); Module [ScaleTheory]
      adds the abstract effect of a plan on the set of running numbers
      ([apply_action], [after_scale]), the reachability relation
      [scale_reachable], and the theorems.
    - [Control]: [control_active_units], [control_units].
    - [Main]: the parsed command line ([subcmd], the seven sub-parsers, and
      [cli_args]), [main_dispatch], [main_handler], [main], [exit_status].
    - [RefHost]: a reference model of systemd and the file system (from the
      specification's section 6, not code of the repository), an instance of
      [Host].
    - [Scenarios]: the program run on reference hosts (the repository's two
      tests and a duplicate-number crash, as Examples) and the witnesses of
      the theorems with hypotheses.

    What the theorems show:
    - reconciliation ([ScaleTheory]): from running numbers [1..k], one
      successful [scale_service n] leaves [1..n] and a second one plans
      nothing ([scale_converges]); every state reachable from none by
      scaling is [1..k] ([scale_reachable_contiguous], by rule induction);
      [disable] only targets running numbers outside [1..n] and [enable] only
      missing numbers of [1..n] ([scale_plan_targets]); the [enable] branch
      always has work ([scale_plan_enable_nonempty]); [scale_service] starts
      at most one process after discovery, with the exact argument vector of
      its plan ([scale_service_calls]); a non-integer or negative count
      raises before any process ([scale_service_rejects]); the instance
      number parsed from [svc@i.service] is [i] ([unit_number_unit_file]);
      end to end, when discovery lists [svc@1..k], [scale_service n] makes
      the one call whose effect is exactly [1..n] ([scale_service_reconciles]).
    - departures from the specification: the no-op test compares counts
      only, so equal counts do nothing whatever the numbers, e.g. [{1, 3}]
      scaled to 2 keeps 3 ([scale_plan_count_only]); running numbers all
      above [n] are all disabled, e.g. [{5, 6, 7}] scaled to 2 stops all
      ([scale_plan_disable_all]); the acting call orders numbers as strings,
      [svc@10] before [svc@2] ([action_args_string_order]); more names than
      wanted with no number outside [1..n] (two names with one number) give
      a [disable] call with no unit ([scale_plan_disable_nothing]).
    - errors: [systemctl] never raises [SystemctlException], only
      [AttributeError], because the child's stderr is not piped
      ([systemctl_raises]); hence, for every command line argparse accepts,
      [main] exits with 0, 1 or 3, never 2 ([main_exit_status]); a negative count exits 1, not 3
      ([main_scale_negative]); a missing unit file raises [UserError] after
      one query ([get_active_units_no_unit_file]).
    - dispatch ([Control]): the command goes to the active units, else to the
      enabled ones, else nowhere; [control_units] always calls [systemctl],
      even with no unit.

    Bounds and fuel: [str(n)] uses fuel [1 + log2 n], at least the number of
    decimal digits ([z_digits_spec]); every other function is structural.
    Python integers are unbounded and are modelled as [Z].

    Not modelled: argument parsing by [argparse] (a library; [main] starts
    from its result [cli_args], whose sub-command is one of the seven
    choices, and argparse's usage error, exit status 2, happens before
    [main]'s [try] block); the text of [parser.print_help()]
    (part of [cli_args]); non-ASCII text (strings are byte strings, and the
    Unicode whitespace and line breaks of Python are left out); the test
    fixture of src/tests/test_sdmpm.py (files written under ~/.config), whose
    two tests are replayed in [Scenarios] on the reference host; systemd itself beyond the
    reference model [RefHost].
*)

From stdpp Require Export base list gmap sets strings sorting list_numbers.
From Stdlib Require Export ZArith Lia.

Declare Scope sdmpm_scope.
Delimit Scope sdmpm_scope with sdmpm.

Create HintDb sdmpm discriminated.
Create Rewrite HintDb sdmpm_rw.

(** ** Tactics shared by the components *)

Ltac invc H := inversion H; subst; clear H.

(** ** Sorting: Python's [sorted] on a totally ordered type

    Python's [sorted] returns the unique ascending permutation of its
    argument; [merge_sort R] computes one, and any two sorted permutations of
    the same list are equal when [R] is antisymmetric. *)

Section SortedUnique.
Context {A : Type} (R : relation A) `{!RelDecision R}.
Context `{!Transitive R} `{!AntiSymm (=) R} `{!Total R}.

Lemma merge_sort_perm_eq (l1 l2 : list A) :
  l1 ≡ₚ l2 → merge_sort R l1 = merge_sort R l2.
Proof.
  intros Hp. apply (Sorted_unique R); try apply Sorted_merge_sort; try done.
  by rewrite !merge_sort_Permutation.
Qed.

Lemma elem_of_merge_sort (x : A) (l : list A) : x ∈ merge_sort R l ↔ x ∈ l.
Proof. by rewrite merge_sort_Permutation. Qed.

Lemma length_merge_sort (l : list A) : length (merge_sort R l) = length l.
Proof. by rewrite merge_sort_Permutation. Qed.

Lemma merge_sort_sorted_id (l : list A) : Sorted R l → merge_sort R l = l.
Proof.
  intros Hs. apply (Sorted_unique R); try done.
  - apply Sorted_merge_sort; apply _.
  - apply merge_sort_Permutation.
Qed.

(** In the sorted list, an element [x] that [y] does not precede comes
    before [y]. *)
Lemma merge_sort_order (l : list A) (x y : A) :
  x ∈ l → y ∈ l → x ≠ y → ¬ R y x →
  ∃ l1 l2 l3, merge_sort R l = l1 ++ x :: l2 ++ y :: l3.
Proof.
  rewrite <- (elem_of_merge_sort x), <- (elem_of_merge_sort y).
  pose proof (StronglySorted_merge_sort R l) as Hs.
  revert Hs. generalize (merge_sort R l) as m.
  induction 1 as [|a m Hs IH Hall]; [by intros ?%elem_of_nil|].
  intros [->|Hx]%elem_of_cons [->|Hy]%elem_of_cons Hne HR; [done| | |].
  - apply list_elem_of_split in Hy as (l2 & l3 & ->). by exists [], l2, l3.
  - exfalso. apply HR. by eapply Forall_forall.
  - destruct (IH Hx Hy Hne HR) as (l1 & l2 & l3 & ->). by exists (a :: l1), l2, l3.
Qed.
End SortedUnique.

(** ** Ranges: Python's [range(1, n + 1)] *)

Lemma elem_of_seqZ_1 (n k : Z) : k ∈ seqZ 1 n ↔ (1 <= k <= n)%Z.
Proof. rewrite elem_of_seqZ. lia. Qed.

Lemma elem_of_range_set (n k : Z) :
  k ∈ (list_to_set (seqZ 1 n) : gset Z) ↔ (1 <= k <= n)%Z.
Proof. rewrite elem_of_list_to_set. apply elem_of_seqZ_1. Qed.

Lemma size_range_set (n : Z) :
  size (list_to_set (seqZ 1 n) : gset Z) = Z.to_nat n.
Proof. rewrite size_list_to_set by apply NoDup_seqZ. apply length_seqZ. Qed.

#[export] Hint Rewrite elem_of_range_set : sdmpm_rw.

(** Equalities and inclusions of sets of integers built from ranges with
    union and difference: reduce to arithmetic on one element. *)
Ltac range_set_solver :=
  first [apply set_eq | apply elem_of_subseteq]; intros ?;
  rewrite ?elem_of_difference, ?elem_of_union, ?elem_of_intersection,
    ?elem_of_singleton, ?elem_of_list_to_set, ?elem_of_seqZ;
  try (rewrite elem_of_empty); lia.
#[export] Hint Resolve NoDup_seqZ : sdmpm.

(** ** String append ([+:+] is stdpp's notation for [String.append]) *)

Lemma str_app_cons (c : Ascii.ascii) (a b : string) :
  String c a +:+ b = String c (a +:+ b).
Proof. reflexivity. Qed.

Lemma str_app_nil_l (b : string) : EmptyString +:+ b = b.
Proof. reflexivity. Qed.

Lemma str_app_nil_r (a : string) : a +:+ EmptyString = a.
Proof. induction a as [|c a IH]; [done|]. rewrite str_app_cons, IH. done. Qed.

Lemma str_app_assoc (a b c : string) : a +:+ (b +:+ c) = (a +:+ b) +:+ c.
Proof. induction a as [|x a IH]; [done|]. rewrite !str_app_cons, IH. done. Qed.

#[export] Hint Rewrite str_app_cons str_app_nil_l str_app_nil_r : sdmpm_rw.

(** ** Lists *)

Lemma rev_nil_inv' {A} (l : list A) : rev l = [] -> l = [].
Proof. destruct l as [|x l]; [done|]. simpl. intros H. by destruct (app_cons_not_nil (rev l) [] x). Qed.

Lemma foldl_rev_foldr {A B} (f : B -> A -> B) (a : B) (l : list A) :
  foldl f a (rev l) = foldr (fun x acc => f acc x) a l.
Proof. induction l as [|x l IH]; [done|]. simpl. rewrite foldl_app, IH. done. Qed.
