(* ===== verification/PyStr.v ===== *)
(** * PyStr: the Python string built-ins that sdmpm.py uses

    Each definition follows CPython's documented behaviour on ASCII text:
    [str.split()] (runs of whitespace), [str.split(sep)] for a one-character
    separator, [str.splitlines()], [str.strip()], [str.startswith],
    [int(str)], [str(int)], [", ".join] and [sorted] on strings.  Strings are
    Stdlib [string]s (lists of 8-bit characters); the non-ASCII whitespace and
    line-break code points of Python 3 (U+0085, U+2028, ...) are not
    modelled. *)

From S2P Require Import Prelude.
From Stdlib Require Import Ascii String.

Local Open Scope string_scope.
Local Open Scope Z_scope.

Module PyStr.

(** [str.isspace] on one ASCII character: \t \n \v \f \r, the file, group,
    record and unit separators \x1c-\x1f, and the space. *)
Definition py_isspace (c : ascii) : bool :=
  let n := nat_of_ascii c in
  ((9 <=? n) && (n <=? 13))%nat || ((28 <=? n) && (n <=? 32))%nat.

(** The line boundaries of [str.splitlines] in ASCII: \n \r \v \f \x1c \x1d
    \x1e (the pair \r\n counts as one boundary). *)
Definition py_is_line_break (c : ascii) : bool :=
  let n := nat_of_ascii c in
  ((10 <=? n) && (n <=? 13))%nat || ((28 <=? n) && (n <=? 30))%nat.

(** [str.split()]: the maximal runs of non-whitespace characters.
    [ws_go s] returns the word that starts [s] (possibly empty) and the words
    after it. *)
Fixpoint ws_go (s : string) : string * list string :=
  match s with
  | EmptyString => (EmptyString, [])
  | String c s' =>
      let '(w, ws) := ws_go s' in
      if py_isspace c
      then (EmptyString, match w with EmptyString => ws | _ => w :: ws end)
      else (String c w, ws)
  end.

Definition py_split_ws (s : string) : list string :=
  let '(w, ws) := ws_go s in
  match w with EmptyString => ws | _ => w :: ws end.

(** [str.split(sep)] with a one-character separator: always one more piece
    than there are separators. *)
Fixpoint py_split_on (sep : ascii) (s : string) : list string :=
  match s with
  | EmptyString => [EmptyString]
  | String c s' =>
      match py_split_on sep s' with
      | [] => []
      | w :: ws => if Ascii.eqb c sep then EmptyString :: w :: ws else String c w :: ws
      end
  end.

(** [str.splitlines()]: no empty last line for a final line break. *)
Fixpoint py_splitlines (s : string) : list string :=
  match s with
  | EmptyString => []
  | String c s' =>
      if py_is_line_break c
      then EmptyString :: py_splitlines
             (if Ascii.eqb c "013"%char
              then match s' with
                   | String d t => if Ascii.eqb d "010"%char then t else s'
                   | EmptyString => s'
                   end
              else s')
      else match py_splitlines s' with
           | [] => [String c EmptyString]
           | l :: ls => String c l :: ls
           end
  end.

(** [str.strip()] *)
Fixpoint py_lstrip (s : string) : string :=
  match s with
  | EmptyString => EmptyString
  | String c s' => if py_isspace c then py_lstrip s' else s
  end.

Fixpoint py_rstrip (s : string) : string :=
  match s with
  | EmptyString => EmptyString
  | String c s' =>
      match py_rstrip s' with
      | EmptyString => if py_isspace c then EmptyString else String c EmptyString
      | r => String c r
      end
  end.

Definition py_strip (s : string) : string := py_rstrip (py_lstrip s).

(** [s.startswith(p)] *)
Definition py_startswith (s p : string) : bool := String.prefix p s.

(** [all(p(c) for c in s)] *)
Fixpoint str_forall (p : ascii -> bool) (s : string) : bool :=
  match s with
  | EmptyString => true
  | String c s' => p c && str_forall p s'
  end.

(** [c in s] for a single character. *)
Fixpoint char_in (c : ascii) (s : string) : bool :=
  match s with
  | EmptyString => false
  | String d s' => Ascii.eqb c d || char_in c s'
  end.

(** [int(s)]: surrounding whitespace, an optional sign, then decimal digits
    with single underscores allowed between digits.  [None] is the
    [ValueError] of CPython. *)
Fixpoint parse_digits (acc : Z) (prev_digit : bool) (s : string) : option Z :=
  match s with
  | EmptyString => if prev_digit then Some acc else None
  | String c s' =>
      match Ascii.is_nat c with
      | Some d => parse_digits (acc * 10 + Z.of_nat d) true s'
      | None =>
          if prev_digit && Ascii.eqb c "_"%char then parse_digits acc false s' else None
      end
  end.

Definition py_int (s : string) : option Z :=
  match py_strip s with
  | EmptyString => None
  | String c r =>
      if Ascii.eqb c "-"%char then Z.opp <$> parse_digits 0 false r
      else if Ascii.eqb c "+"%char then parse_digits 0 false r
      else parse_digits 0 false (String c r)
  end.

(** [str(n)]: the decimal digits of [n], least significant first, then
    written out most significant first.  The fuel [S (log2 n)] is at least
    the number of decimal digits. *)
Fixpoint z_digits (fuel : nat) (n : Z) : list Z :=
  match fuel with
  | O => []
  | S f => (n mod 10) :: (if n <? 10 then [] else z_digits f (n / 10))
  end.

Definition digit_char (d : Z) : ascii := ascii_of_nat (48 + Z.to_nat d).

Definition digits_str (ds : list Z) : string :=
  string_of_list_ascii (map digit_char ds).

Definition digits_fuel (n : Z) : nat := S (Z.to_nat (Z.log2 n)).

Definition str_nat (n : Z) : string := digits_str (rev (z_digits (digits_fuel n) n)).

Definition py_str_Z (z : Z) : string :=
  if z <? 0 then "-" +:+ str_nat (- z) else str_nat z.

(** [sep.join(l)] *)
Fixpoint py_join (sep : string) (l : list string) : string :=
  match l with
  | [] => EmptyString
  | [x] => x
  | x :: l' => x +:+ sep +:+ py_join sep l'
  end.

(** [sorted(l)] on strings: code-point (here byte) lexicographic order. *)
Definition py_sorted (l : list string) : list string := merge_sort String.le l.

(** [repr(s)] for a string: single quotes unless [s] has a single quote and
    no double quote; backslash, the quote, \t \n \r escaped by name, other
    control characters and DEL as [\xNN] (lower-case hex). *)
Definition hex_char (n : nat) : ascii :=
  if (n <? 10)%nat then ascii_of_nat (48 + n) else ascii_of_nat (87 + n).

Definition repr_char (q : ascii) (c : ascii) : string :=
  let n := nat_of_ascii c in
  if Ascii.eqb c "\"%char then String "\"%char (String "\"%char EmptyString)
  else if Ascii.eqb c q then String "\"%char (String q EmptyString)
  else if (n =? 9)%nat then "\t"
  else if (n =? 10)%nat then "\n"
  else if (n =? 13)%nat then "\r"
  else if ((n <? 32) || (n =? 127))%nat
  then String "\"%char (String "x" (String (hex_char (n / 16)) (String (hex_char (n mod 16)) EmptyString)))
  else String c EmptyString.

Fixpoint repr_body (q : ascii) (s : string) : string :=
  match s with
  | EmptyString => EmptyString
  | String c s' => repr_char q c +:+ repr_body q s'
  end.

Definition py_repr_str (s : string) : string :=
  let q := if char_in "'"%char s && negb (char_in "034"%char s) then "034"%char else "'"%char in
  String q (repr_body q s +:+ String q EmptyString).

(** [repr(l)] (equivalently [str(l)]) for a list of strings. *)
Definition py_repr_list (l : list string) : string :=
  "[" +:+ py_join ", " (map py_repr_str l) +:+ "]".

Example py_split_ws_ex :
  py_split_ws "  worker@1.service loaded active running  x " =
  ["worker@1.service"; "loaded"; "active"; "running"; "x"].
Proof. reflexivity. Qed.

Example py_split_on_ex :
  py_split_on "@" "a@b@" = ["a"; "b"; EmptyString] /\ py_split_on "@" EmptyString = [EmptyString].
Proof. split; reflexivity. Qed.

Example py_splitlines_ex :
  py_splitlines ("a" +:+ String "013" (String "010" "b") +:+ String "010" EmptyString)
  = ["a"; "b"] /\ py_splitlines (String "010" (String "010" "c")) = [EmptyString; EmptyString; "c"].
Proof. split; reflexivity. Qed.

Example py_int_ex :
  py_int " 12 " = Some 12 /\ py_int "-0_7" = Some (-7) /\ py_int "1__0" = None
  /\ py_int EmptyString = None /\ py_int "x1" = None /\ py_int "007" = Some 7.
Proof. repeat split; reflexivity. Qed.

Example py_str_Z_ex :
  py_str_Z 0 = "0" /\ py_str_Z 1024 = "1024" /\ py_str_Z (-35) = "-35".
Proof. repeat split; reflexivity. Qed.

Example py_sorted_ex : py_sorted ["2"; "10"; "1"] = ["1"; "10"; "2"].
Proof. reflexivity. Qed.

Example py_repr_list_ex :
  py_repr_list ["--no-legend"; "it's"; String "009" EmptyString] =
  "['--no-legend', " +:+ String "034" ("it's" +:+ String "034" EmptyString) +:+ ", '\t']".
Proof. reflexivity. Qed.

(** ** Lemmas *)

Lemma py_split_on_cons (sep : ascii) (s : string) :
  exists w ws, py_split_on sep s = w :: ws.
Proof.
  induction s as [|c s [w [ws IH]]]; simpl; [eauto|].
  rewrite IH. destruct (Ascii.eqb c sep); eauto.
Qed.

Lemma py_split_on_no_sep (sep : ascii) (a : string) :
  char_in sep a = false -> py_split_on sep a = [a].
Proof.
  induction a as [|c a IH]; simpl; [done|].
  intros [Hc Ha]%orb_false_iff. rewrite IH by done.
  rewrite Ascii.eqb_sym, Hc. done.
Qed.

(** Splitting [a + sep + b] where [a] has no separator gives [a] first. *)
Lemma py_split_on_app_sep (sep : ascii) (a b : string) :
  char_in sep a = false ->
  py_split_on sep (a +:+ String sep b) = a :: py_split_on sep b.
Proof.
  induction a as [|c a IH]; simpl.
  - intros _. destruct (py_split_on_cons sep b) as (w & ws & ->).
    rewrite Ascii.eqb_refl. done.
  - intros [Hc Ha]%orb_false_iff. simpl.
    rewrite IH by done. rewrite Ascii.eqb_sym, Hc. done.
Qed.

Lemma char_in_app (c : ascii) (a b : string) :
  char_in c (a +:+ b) = char_in c a || char_in c b.
Proof.
  induction a as [|d a IH]; simpl; [done|].
  rewrite IH. apply orb_assoc.
Qed.

Lemma char_in_str_forall (p : ascii -> bool) (c : ascii) (s : string) :
  str_forall p s = true -> p c = false -> char_in c s = false.
Proof.
  induction s as [|d s IH]; simpl; [done|].
  intros [Hd Hs]%andb_true_iff Hc. rewrite IH by done.
  destruct (Ascii.eqb_spec c d); [congruence|done].
Qed.

(** *** [str] and [int] on integers *)

Lemma log2_div10 (n : Z) : 10 <= n -> Z.log2 (n / 10) < Z.log2 n.
Proof.
  intros Hn.
  assert (n / 10 <= n / 2) by (apply Z.div_le_compat_l; lia).
  assert (Z.log2 (n / 10) <= Z.log2 (n / 2)) by (apply Z.log2_le_mono; lia).
  assert (Z.log2 8 <= Z.log2 n) by (apply Z.log2_le_mono; lia).
  change (n / 2) with (n / 2 ^ 1) in *. rewrite <- Z.shiftr_div_pow2 in * by lia.
  rewrite Z.log2_shiftr in * by lia. change (Z.log2 8) with 3 in *. lia.
Qed.

Definition digit_value (ds : list Z) : Z := foldr (fun d acc => acc * 10 + d) 0 ds.

(** With enough fuel, [z_digits] lists the digits of [n]: they are decimal
    digits, the list is not empty, and they add up to [n]. *)
Lemma z_digits_spec (f : nat) (n : Z) :
  0 <= n -> Z.log2 n < Z.of_nat f ->
  Forall (fun d => 0 <= d < 10) (z_digits f n) /\ z_digits f n <> []
  /\ digit_value (z_digits f n) = n.
Proof.
  revert n; induction f as [|f IH]; intros n Hn Hf.
  - pose proof (Z.log2_nonneg n). lia.
  - simpl. pose proof (Z.mod_pos_bound n 10 ltac:(lia)).
    destruct (Z.ltb_spec n 10).
    + rewrite Z.mod_small by lia. unfold digit_value.
      split; [|split]; [constructor; [lia | constructor] | done | simpl; lia].
    + pose proof (log2_div10 n ltac:(lia)).
      destruct (IH (n / 10)) as (Hd & _ & Hv); [apply Z.div_pos; lia | lia |].
      repeat split; [constructor; [lia | done] | done |].
      simpl. fold (digit_value (z_digits f (n / 10))). rewrite Hv.
      pose proof (Z.div_mod n 10). lia.
Qed.

Lemma is_nat_digit_char (d : Z) :
  0 <= d < 10 -> Ascii.is_nat (digit_char d) = Some (Z.to_nat d).
Proof.
  intros Hd. rewrite <- (Z2Nat.id d) by lia.
  assert (Z.to_nat d < 10)%nat as Hk by lia. revert Hk.
  generalize (Z.to_nat d) as k. intros k Hk.
  do 10 (destruct k as [|k]; [reflexivity|]). lia.
Qed.

Lemma parse_digits_str (ds : list Z) (a : Z) (p : bool) :
  Forall (fun d => 0 <= d < 10) ds ->
  parse_digits a p (digits_str ds) =
  if p || negb (bool_decide (ds = [])) then Some (foldl (fun acc d => acc * 10 + d) a ds)
  else None.
Proof.
  revert a p; induction ds as [|d ds IH]; intros a p Hds.
  - by destruct p.
  - invc Hds. unfold digits_str in *. cbn [map string_of_list_ascii parse_digits].
    rewrite is_nat_digit_char by done. rewrite IH by done.
    rewrite (bool_decide_false (d :: ds = [])) by done.
    rewrite orb_true_r. cbn [foldl orb]. rewrite Z2Nat.id by lia. done.
Qed.

Definition is_digit (c : ascii) : bool := bool_decide (is_Some (Ascii.is_nat c)).

Lemma str_nat_digits (n : Z) :
  0 <= n -> str_forall is_digit (str_nat n) = true /\ str_nat n <> EmptyString.
Proof.
  intros Hn. destruct (z_digits_spec (digits_fuel n) n) as (Hd & Hne & _);
    [done | unfold digits_fuel; lia |].
  unfold str_nat, digits_str. apply Forall_rev in Hd.
  split; [|destruct (rev _) eqn:E; [apply rev_nil_inv' in E; done | discriminate]].
  induction (rev (z_digits (digits_fuel n) n)) as [|d ds IH]; [done|].
  invc Hd. cbn [map string_of_list_ascii str_forall]. rewrite IH by done.
  unfold is_digit. rewrite is_nat_digit_char by done. done.
Qed.

Lemma str_forall_no_space (p : ascii -> bool) (s : string) :
  str_forall p s = true -> (forall c, p c = true -> py_isspace c = false) ->
  py_strip s = s.
Proof.
  intros Hs Hp. unfold py_strip.
  assert (py_lstrip s = s) as ->.
  { destruct s as [|c s]; simpl in *; [done|].
    apply andb_true_iff in Hs as [Hc _]. by rewrite Hp. }
  induction s as [|c s IH]; simpl in *; [done|].
  apply andb_true_iff in Hs as [Hc Hs]. rewrite IH by done.
  destruct s; [by rewrite Hp | done].
Qed.

Lemma is_digit_not_space (c : ascii) : is_digit c = true -> py_isspace c = false.
Proof.
  unfold is_digit. intros H%bool_decide_eq_true.
  destruct c as [[] [] [] [] [] [] [] []]; simpl in *; try done;
    by destruct H as [? ?].
Qed.

Lemma parse_str_nat (n : Z) : 0 <= n -> parse_digits 0 false (str_nat n) = Some n.
Proof.
  intros Hn. destruct (z_digits_spec (digits_fuel n) n) as (Hd & Hne & Hv);
    [done | unfold digits_fuel; lia |].
  unfold str_nat. rewrite parse_digits_str by (by apply Forall_rev).
  rewrite bool_decide_false by (intros E; apply rev_nil_inv' in E; done).
  rewrite foldl_rev_foldr. cbn [orb negb]. f_equal. exact Hv.
Qed.

(** Round trip: [int(str(n)) == n] for every integer. *)
Lemma py_int_py_str_Z (z : Z) : py_int (py_str_Z z) = Some z.
Proof.
  pose proof parse_str_nat as Hnat.
  unfold py_int, py_str_Z. destruct (Z.ltb_spec z 0).
  - rewrite (str_forall_no_space (fun c => Ascii.eqb c "-" || is_digit c)).
    + rewrite str_app_cons, str_app_nil_l. simpl. rewrite Hnat by lia.
      simpl. f_equal. lia.
    + destruct (str_nat_digits (- z)) as [Hd _]; [lia|]. simpl.
      induction (str_nat (- z)) as [|c s IH]; simpl in *; [done|].
      apply andb_true_iff in Hd as [-> Hd]. rewrite orb_true_r. simpl. by apply IH.
    + intros c [->%Ascii.eqb_eq | Hc]%orb_true_iff; [done|].
      by apply is_digit_not_space.
  - destruct (str_nat_digits z) as [Hd Hne]; [lia|].
    rewrite (str_forall_no_space is_digit) by auto using is_digit_not_space.
    destruct (str_nat z) as [|c s] eqn:E; [done|].
    rewrite <- E. simpl in Hd. apply andb_true_iff in Hd as [Hc _].
    replace (Ascii.eqb c "-") with false
      by (destruct c as [[] [] [] [] [] [] [] []]; done).
    replace (Ascii.eqb c "+") with false
      by (destruct c as [[] [] [] [] [] [] [] []]; done).
    apply Hnat. lia.
Qed.

(** The text of [str(n)] has no ['@'] and no ['.'] in it. *)
Lemma char_in_py_str_Z (c : ascii) (z : Z) :
  is_digit c = false -> Ascii.eqb c "-" = false -> char_in c (py_str_Z z) = false.
Proof.
  intros Hc Hm. unfold py_str_Z. destruct (Z.ltb_spec z 0).
  - rewrite str_app_cons, str_app_nil_l. simpl. rewrite Hm. simpl.
    apply (char_in_str_forall is_digit); [|done]. apply str_nat_digits. lia.
  - apply (char_in_str_forall is_digit); [|done]. apply str_nat_digits. lia.
Qed.

(** [str] is injective on integers. *)
Lemma py_str_Z_inj (z1 z2 : Z) : py_str_Z z1 = py_str_Z z2 -> z1 = z2.
Proof.
  intros E. pose proof (py_int_py_str_Z z1) as H1.
  rewrite E, py_int_py_str_Z in H1. by injection H1.
Qed.

(** In [sorted(l)], a string lexicographically at most [s2] and different
    from it comes before [s2]. *)
Lemma py_sorted_order (l : list string) (s1 s2 : string) :
  s1 ∈ l -> s2 ∈ l -> s1 <> s2 -> String.le s1 s2 ->
  exists l1 l2 l3, py_sorted l = (l1 ++ s1 :: l2 ++ s2 :: l3)%list.
Proof.
  intros H1 H2 Hne Hle. unfold py_sorted. apply (merge_sort_order String.le); try done.
  intros Hle'. apply Hne. by apply (anti_symm String.le).
Qed.

End PyStr.
