(* ===== verification/PyEff.v ===== *)
(** * PyEff: Python effects used by sdmpm.py

    The program's effects are: running [systemctl] as a subprocess
    ([subprocess.Popen(...).communicate()]), listing a directory
    ([os.listdir]), reading the home directory ([os.path.expanduser]),
    printing, and raising exceptions.  The external system (systemd and the
    file system) is the [Host] interface; everything else is a [world]
    threaded by the state/error monad [PyM].  A raised exception keeps the
    effects that happened before it, as in Python. *)

From S2P Require Import Prelude PyStr.
From Stdlib Require Import Ascii String.

Local Open Scope string_scope.
Local Open Scope Z_scope.

Module PyEff.
Import PyStr.

(** The exceptions the program raises or can be raised inside it.
    [SystemctlException] carries its message, [retcode], [cmd] and the
    stripped [stderr] (src/src/sdmpm.py, class SystemctlException). *)
Inductive exc :=
| UserError (msg : string)
| ValueError (msg : string)
| IndexError
| AttributeError (msg : string)
| FileNotFoundError (path : string)
| SystemExit (code : Z)
| SystemctlException (msg : string) (retcode : Z) (cmd : list string) (stderr : string).

(** The external system, as the program sees it.
    - [host_run argv h]: run the process [argv] to completion, giving its
      exit code, its standard output and its standard error texts and the
      host afterwards;
    - [host_listdir path h]: the entries of a directory, [None] when it does
      not exist;
    - [host_home h]: the home directory [~] expands to. *)
Class Host (H : Type) := {
  host_run : list string -> H -> Z * string * string * H;
  host_listdir : string -> H -> option (list string);
  host_home : H -> string;
}.

(** The world: the host, what was written to the terminal's standard output
    and standard error (one element per write; [print] writes one line), and
    the argument vectors of the processes started, in order. *)
Record world (H : Type) := mk_world {
  w_host : H;
  w_out : list string;
  w_err : list string;
  w_calls : list (list string);
}.
Arguments mk_world {H}.
Arguments w_host {H}.
Arguments w_out {H}.
Arguments w_err {H}.
Arguments w_calls {H}.

Definition init_world {H} (h : H) : world H := mk_world h [] [] [].

(** ** The monad *)

Definition PyM (H A : Type) : Type := world H -> (exc + A) * world H.

Definition py_ret {H A} (a : A) : PyM H A := fun w => (inr a, w).

Definition py_bind {H A B} (m : PyM H A) (k : A -> PyM H B) : PyM H B :=
  fun w => match m w with
           | (inl e, w') => (inl e, w')
           | (inr a, w') => k a w'
           end.

Definition py_raise {H A} (e : exc) : PyM H A := fun w => (inl e, w).

Notation "x <- c1 ;; c2" := (py_bind c1 (fun x => c2))
  (at level 100, c1 at next level, right associativity) : sdmpm_scope.
Notation "c1 ;; c2" := (py_bind c1 (fun _ => c2))
  (at level 100, right associativity) : sdmpm_scope.
Local Open Scope sdmpm_scope.

(** An [option] result turned into a value or an exception. *)
Definition py_lift {H A} (e : exc) (o : option A) : PyM H A :=
  match o with Some a => py_ret a | None => py_raise e end.

(** [try: m except ...]: [handler e] is [Some h] when an [except] clause
    catches [e] and runs [h], [None] when [e] propagates. *)
Definition py_catch {H A} (m : PyM H A) (handler : exc -> option (PyM H A)) : PyM H A :=
  fun w => match m w with
           | (inl e, w') => match handler e with Some h => h w' | None => (inl e, w') end
           | r => r
           end.

(** A result of a pure computation that may raise. *)
Definition py_of_sum {H A} (r : exc + A) : PyM H A :=
  match r with inl e => py_raise e | inr a => py_ret a end.

(** Mapping a function that may raise over a list, first exception wins. *)
Fixpoint sum_mapM {A B} (f : A -> exc + B) (l : list A) : exc + list B :=
  match l with
  | [] => inr []
  | x :: l' => match f x with
               | inl e => inl e
               | inr y => match sum_mapM f l' with inl e => inl e | inr ys => inr (y :: ys) end
               end
  end.

(** [[f(x) for x in l]] where [f] may raise: the first exception wins. *)
Fixpoint py_mapM {H A B} (f : A -> PyM H B) (l : list A) : PyM H (list B) :=
  match l with
  | [] => py_ret []
  | x :: l' => y <- f x ;; ys <- py_mapM f l' ;; py_ret (y :: ys)
  end.

(** [print(s)] *)
Definition py_print {H} (s : string) : PyM H unit :=
  fun w => (inr tt, mk_world (w_host w) (w_out w ++ [s]) (w_err w) (w_calls w)).

(** [os.listdir(path)] *)
Definition py_listdir {H} `{!Host H} (path : string) : PyM H (list string) :=
  fun w => match host_listdir path (w_host w) with
           | Some l => (inr l, w)
           | None => (inl (FileNotFoundError path), w)
           end.

(** [os.path.expanduser(p)] for [p = "~" + rest]: the home directory with
    its trailing slashes removed, then [rest] (or ["/"] if that is empty). *)
Fixpoint rstrip_slash (s : string) : string :=
  match s with
  | EmptyString => EmptyString
  | String c s' =>
      match rstrip_slash s' with
      | EmptyString => if Ascii.eqb c "/" then EmptyString else String c EmptyString
      | r => String c r
      end
  end.

Definition py_expanduser {H} `{!Host H} (p : string) : PyM H string :=
  fun w => match p with
           | String "~"%char rest =>
               (inr (match rstrip_slash (host_home (w_host w)) +:+ rest with
                     | EmptyString => "/"
                     | r => r
                     end), w)
           | _ => (inr p, w)
           end.

(** [subprocess.Popen(argv, stdout=PIPE if cap_out else None, stderr=...)]
    followed by [communicate()]: the exit code and the captured texts
    ([None] for a stream that was not piped, which goes to the terminal). *)
Definition popen_communicate {H} `{!Host H} (argv : list string) (cap_out cap_err : bool)
  : PyM H (Z * option string * option string) :=
  fun w =>
    let '(code, out, err, h') := host_run argv (w_host w) in
    (inr (code, if cap_out then Some out else None, if cap_err then Some err else None),
     mk_world h' (if cap_out then w_out w else w_out w ++ [out])
                 (if cap_err then w_err w else w_err w ++ [err])
                 (w_calls w ++ [argv])).

(** ** Monad laws and unfolding lemmas *)

Section Laws.
Context {H : Type}.

Lemma py_bind_ret_l {A B} (a : A) (k : A -> PyM H B) : py_bind (py_ret a) k = k a.
Proof. reflexivity. Qed.

Lemma py_bind_ret_r {A} (m : PyM H A) w : py_bind m py_ret w = m w.
Proof. unfold py_bind. by destruct (m w) as [[] ?]. Qed.

Lemma py_bind_assoc {A B C} (m : PyM H A) (k : A -> PyM H B) (k' : B -> PyM H C) w :
  py_bind (py_bind m k) k' w = py_bind m (fun a => py_bind (k a) k') w.
Proof. unfold py_bind. by destruct (m w) as [[] ?]. Qed.

Lemma py_lift_Some {A} (e : exc) (a : A) : @py_lift H A e (Some a) = py_ret a.
Proof. reflexivity. Qed.

Lemma py_bind_raise {A B} (e : exc) (k : A -> PyM H B) : py_bind (py_raise e) k = py_raise e.
Proof. reflexivity. Qed.

(** Running [m ;; k] when [m] succeeds. *)
Lemma py_bind_inr {A B} (m : PyM H A) (k : A -> PyM H B) w a w' :
  m w = (inr a, w') -> py_bind m k w = k a w'.
Proof. unfold py_bind. by intros ->. Qed.

Lemma py_bind_inl {A B} (m : PyM H A) (k : A -> PyM H B) w e w' :
  m w = (inl e, w') -> py_bind m k w = (inl e, w').
Proof. unfold py_bind. by intros ->. Qed.

(** [py_mapM] of a total, effect-free function. *)
Lemma py_mapM_ret {A B} (f : A -> B) (l : list A) w :
  @py_mapM H A B (fun x => py_ret (f x)) l w = (inr (map f l), w).
Proof.
  induction l as [|x l IH]; [done|]. simpl.
  unfold py_bind at 1. simpl. unfold py_bind. rewrite IH. done.
Qed.
(** [py_mapM] of a function that raises [e] where [f] is [None]. *)
Lemma py_mapM_lift {A B} (e : exc) (f : A -> option B) (l : list A) w :
  @py_mapM H A B (fun x => py_lift e (f x)) l w =
  match mapM f l with Some r => (inr r, w) | None => (inl e, w) end.
Proof.
  induction l as [|x l IH]; [done|]. simpl. unfold py_bind at 1.
  destruct (f x); simpl; [|done]. unfold py_bind. rewrite IH.
  by destruct (mapM f l).
Qed.

Lemma py_mapM_of_sum {A B} (f : A -> exc + B) (l : list A) w :
  @py_mapM H A B (fun x => py_of_sum (f x)) l w =
  match sum_mapM f l with inr r => (inr r, w) | inl e => (inl e, w) end.
Proof.
  induction l as [|x l IH]; [done|]. simpl. unfold py_bind at 1.
  destruct (f x); simpl; [done|]. unfold py_bind. rewrite IH.
  by destruct (sum_mapM f l).
Qed.

Lemma sum_mapM_map {A B} (f : A -> exc + B) (g : A -> B) (l : list A) :
  (forall x, x ∈ l -> f x = inr (g x)) -> sum_mapM f l = inr (map g l).
Proof.
  induction l as [|x l IH]; intros Hf; [done|]. simpl.
  rewrite Hf by set_solver. rewrite IH by set_solver. done.
Qed.
End Laws.

(** ** Which exceptions a computation can raise *)

Section RaisesOnly.
Context {H : Type} `{!Host H} (P : exc -> Prop).

Definition raises_only {A} (m : PyM H A) : Prop :=
  forall w e w', m w = (inl e, w') -> P e.

Lemma raises_only_ret {A} (a : A) : raises_only (py_ret a).
Proof. by intros w e w' [=]. Qed.

Lemma raises_only_raise {A} (e : exc) : P e -> raises_only (A:=A) (py_raise e).
Proof. by intros He w e' w' [= <- _]. Qed.

Lemma raises_only_bind {A B} (m : PyM H A) (k : A -> PyM H B) :
  raises_only m -> (forall a, raises_only (k a)) -> raises_only (py_bind m k).
Proof.
  intros Hm Hk w e w'. unfold py_bind.
  destruct (m w) as [[e0|a] w0] eqn:E.
  - intros [= <- _]. by eapply Hm.
  - intros Hk'. by eapply Hk.
Qed.

Lemma raises_only_lift {A} (e : exc) (o : option A) : P e -> raises_only (py_lift e o).
Proof. destruct o; [intros _; apply raises_only_ret | apply raises_only_raise]. Qed.

Lemma raises_only_of_sum {A} (r : exc + A) :
  (forall e, r = inl e -> P e) -> raises_only (py_of_sum r).
Proof. destruct r; intros Hr; [apply raises_only_raise; auto | apply raises_only_ret]. Qed.

Lemma raises_only_mapM {A B} (f : A -> PyM H B) (l : list A) :
  (forall x, raises_only (f x)) -> raises_only (py_mapM f l).
Proof.
  intros Hf. induction l as [|x l IH]; simpl;
    eauto using raises_only_ret, raises_only_bind.
Qed.

Lemma raises_only_print (s : string) : raises_only (py_print s).
Proof. by intros w e w' [=]. Qed.

Lemma raises_only_listdir (path : string) :
  P (FileNotFoundError path) -> raises_only (py_listdir path).
Proof. intros Hp w e w'. unfold py_listdir. by destruct (host_listdir _ _); intros [= <- _]. Qed.

Lemma raises_only_expanduser (p : string) : raises_only (py_expanduser p).
Proof. intros w e w' Hx. unfold py_expanduser in Hx. repeat case_match; simplify_eq. Qed.

Lemma raises_only_popen (argv : list string) (co ce : bool) :
  raises_only (popen_communicate argv co ce).
Proof. intros w e w' Hx. unfold popen_communicate in Hx. repeat case_match; simplify_eq. Qed.
End RaisesOnly.

#[export] Hint Resolve raises_only_ret raises_only_print raises_only_popen
  raises_only_expanduser : sdmpm.

Lemma raises_only_weaken {H A} (P Q : exc -> Prop) (m : PyM H A) :
  (forall e, P e -> Q e) -> raises_only P m -> raises_only Q m.
Proof. intros HPQ Hm w e w' He. eauto. Qed.

(** The exceptions the program's functions raise on their own: neither a
    [SystemctlException] nor a [SystemExit]. *)
Definition ordinary (e : exc) : Prop :=
  match e with SystemctlException _ _ _ _ | SystemExit _ => False | _ => True end.

Lemma ordinary_listdir {H} `{!Host H} (path : string) : raises_only ordinary (H:=H) (py_listdir path).
Proof. by apply raises_only_listdir. Qed.

#[export] Hint Resolve ordinary_listdir : sdmpm.

(** Proves [raises_only ordinary m] by following the structure of [m]. *)
Ltac raises_only_tac :=
  repeat first
    [ solve [eauto with sdmpm]
    | apply raises_only_bind; [|intros ?]
    | apply raises_only_lift; exact I
    | apply raises_only_raise; exact I
    | apply raises_only_mapM; intros ?
    | apply raises_only_of_sum; intros ? ?; simplify_eq; exact I
    | case_match ].

#[export] Hint Rewrite @py_bind_ret_l @py_bind_raise @py_lift_Some : sdmpm_rw.

Example py_expanduser_ex :
  forall H `{!Host H} (w : world H), host_home (w_host w) = "/root/" ->
  py_expanduser "~/.config" w = (inr "/root/.config", w).
Proof. intros H ? w Hh. unfold py_expanduser. rewrite Hh. reflexivity. Qed.

End PyEff.
