(* ===== verification/Systemctl.v ===== *)
(** * Systemctl: the [systemctl] wrapper of sdmpm.py

    [systemctl(args, user=..., capture_output=...)] (src/src/sdmpm.py lines
    41-55) and the constructor of [SystemctlException] (lines 32-38).
    The wrapper never pipes the child's standard error, so [communicate()]
    returns [None] for it and the exception's [stderr.strip()] fails: every
    failing [systemctl] call raises [AttributeError], never
    [SystemctlException]. *)

From S2P Require Import Prelude PyStr PyEff.
From Stdlib Require Import Ascii String.

Local Open Scope string_scope.
Local Open Scope Z_scope.
Local Open Scope sdmpm_scope.

Module Systemctl.
Import PyStr PyEff.

Definition none_strip_msg : string := "'NoneType' object has no attribute 'strip'".

(** [SystemctlException(retcode, cmd, stderr)]: the message formats
    [cmd[1:]] with [%s] (the list's [repr]) and [retcode] with [%d]; then
    [self.stderr = stderr.strip()] runs, which raises on [None]. *)
Definition systemctl_exception (retcode : Z) (cmd : list string) (stderr : option string) : exc :=
  let msg := "systemctl " +:+ py_repr_list (tail cmd) +:+ " failed with error code "
             +:+ py_str_Z retcode in
  match stderr with
  | None => AttributeError none_strip_msg
  | Some e => SystemctlException msg retcode cmd (py_strip e)
  end.

(** The fixed head of every argument vector. *)
Definition systemctl_cmd (user : bool) : list string :=
  ["systemctl"; "--no-legend"; "--no-pager"] ++ (if user then ["--user"] else []).

Section WithHost.
Context {H : Type} `{!Host H}.

(** [systemctl(args, user=user, capture_output=capture_output)]: returns
    the captured standard output, or [None] when it is not captured. *)
Definition systemctl (args : list string) (user capture_output : bool)
  : PyM H (option string) :=
  let cmd := systemctl_cmd user in
  r <- popen_communicate (cmd ++ args) capture_output false ;;
  let '(returncode, stdout, stderr) := r in
  if negb (returncode =? 0)
  then py_raise (systemctl_exception returncode (cmd ++ args) stderr)
  else py_ret (if capture_output then stdout else None).

(** A successful call: the captured output is returned, one process is
    recorded, and an uncaptured output goes to the terminal. *)
Lemma systemctl_ok (args : list string) (user cap : bool) (w : world H) out err h' :
  host_run (systemctl_cmd user ++ args)%list (w_host w) = (0, out, err, h') ->
  systemctl args user cap w =
  (inr (if cap then Some out else None),
   mk_world h' (if cap then w_out w else w_out w ++ [out]) (w_err w ++ [err])
            (w_calls w ++ [(systemctl_cmd user ++ args)%list])).
Proof.
  intros Hrun. unfold systemctl, popen_communicate, py_bind. rewrite Hrun.
  simpl. by destruct cap.
Qed.

(** A failing call raises [AttributeError] (the [stderr] that was never
    piped is [None]); the host's state change and the recorded call stay. *)
Lemma systemctl_fail (args : list string) (user cap : bool) (w : world H) code out err h' :
  code <> 0 ->
  host_run (systemctl_cmd user ++ args)%list (w_host w) = (code, out, err, h') ->
  systemctl args user cap w =
  (inl (AttributeError none_strip_msg),
   mk_world h' (if cap then w_out w else w_out w ++ [out]) (w_err w ++ [err])
            (w_calls w ++ [(systemctl_cmd user ++ args)%list])).
Proof.
  intros Hc Hrun. unfold systemctl, popen_communicate, py_bind. rewrite Hrun.
  simpl. destruct (Z.eqb_spec code 0); [done|]. reflexivity.
Qed.

(** C8: [systemctl] can raise nothing but that [AttributeError]. *)
Lemma systemctl_raises (args : list string) (user cap : bool) (w : world H) e w' :
  systemctl args user cap w = (inl e, w') -> e = AttributeError none_strip_msg.
Proof.
  destruct (host_run (systemctl_cmd user ++ args)%list (w_host w)) as [[[code out] err] h'] eqn:Hrun.
  destruct (Z.eq_dec code 0) as [->|Hc].
  - rewrite (systemctl_ok _ _ _ _ _ _ _ Hrun). done.
  - rewrite (systemctl_fail _ _ _ _ _ _ _ _ Hc Hrun). by intros [= <- _].
Qed.
End WithHost.

Lemma systemctl_ordinary {H} `{!Host H} (args : list string) (user cap : bool) :
  raises_only ordinary (H:=H) (systemctl args user cap).
Proof.
  intros w e w' Hs. unfold systemctl, popen_communicate, py_bind in Hs.
  repeat case_match; unfold py_raise, py_ret in Hs; simplify_eq/=; exact I.
Qed.

#[export] Hint Resolve systemctl_ordinary : sdmpm.

End Systemctl.
