(* ===== verification/Discovery.v ===== *)
(** * Discovery: finding the instances of a template

    [get_active_units] (src/src/sdmpm.py lines 58-73) checks that
    [svc@.service] exists ([systemctl list-unit-files]), then lists the
    loaded units matching [svc@*.service] ([systemctl list-units --all]) and
    returns their names sorted.  [get_enabled_units] (lines 76-87) lists the
    [multi-user.target.wants] directory of the scope and keeps the entries
    starting with [svc@], sorted. *)

From S2P Require Import Prelude PyStr PyEff Systemctl.
From Stdlib Require Import Ascii String.

Local Open Scope string_scope.
Local Open Scope Z_scope.
Local Open Scope sdmpm_scope.

Module Discovery.
Import PyStr PyEff Systemctl.

Definition none_attr_msg (attr : string) : string :=
  "'NoneType' object has no attribute '" +:+ attr +:+ "'".

Definition no_unit_file_msg (service : string) : string :=
  "no systemd unit file with name " +:+ service +:+ "@.service found!".

(** The argument vectors of the two queries. *)
Definition list_unit_files_args (service : string) : list string :=
  ["list-unit-files"; "--"; service +:+ "@.service"].

Definition list_units_args (service : string) : list string :=
  ["list-units"; "--all"; "--"; service +:+ "@*.service"].

(** [l.split()[0]], [None] being the [IndexError] of a blank line. *)
Definition first_token (l : string) : option string := py_split_ws l !! 0%nat.

(** The enabled-units directories (lines 79-83). *)
Definition user_wants_dir : string := "~/.config/systemd/user/multi-user.target.wants".
Definition system_wants_dir : string := "/etc/systemd/system/multi-user.target.wants/".

Section WithHost.
Context {H : Type} `{!Host H}.

Definition get_active_units (service : string) (user : bool) : PyM H (list string) :=
  unit_files <- systemctl (list_unit_files_args service) user true ;;
  uf <- py_lift (AttributeError (none_attr_msg "strip")) unit_files ;;
  if bool_decide (py_strip uf = EmptyString)
  then py_raise (UserError (no_unit_file_msg service))
  else
    units <- systemctl (list_units_args service) user true ;;
    u <- py_lift (AttributeError (none_attr_msg "splitlines")) units ;;
    names <- py_mapM (fun l => py_lift IndexError (first_token l)) (py_splitlines u) ;;
    py_ret (py_sorted names).

Definition get_enabled_units (service : string) (user : bool) : PyM H (list string) :=
  svc_path <- (if user then py_expanduser user_wants_dir else py_ret system_wants_dir) ;;
  files <- py_listdir svc_path ;;
  py_ret (py_sorted (List.filter (fun f => py_startswith f (service +:+ "@")) files)).

(** The world after a captured, successful [systemctl] call. *)
Definition after_query (w : world H) (args : list string) (user : bool) err h' : world H :=
  mk_world h' (w_out w) (w_err w ++ [err]) (w_calls w ++ [(systemctl_cmd user ++ args)%list]).

(** C15: No unit file: [UserError] after exactly the one query. *)
Lemma get_active_units_no_unit_file (service : string) (user : bool) (w : world H) out err h1 :
  host_run (systemctl_cmd user ++ list_unit_files_args service)%list (w_host w) = (0, out, err, h1) ->
  py_strip out = EmptyString ->
  get_active_units service user w =
  (inl (UserError (no_unit_file_msg service)), after_query w (list_unit_files_args service) user err h1).
Proof.
  intros Hrun Hs. unfold get_active_units.
  erewrite py_bind_inr by (apply systemctl_ok; exact Hrun).
  rewrite py_lift_Some; cbn [py_ret py_bind]. rewrite bool_decide_true by done. reflexivity.
Qed.

(** C16: Both queries succeed and every output line has a first word: the
    sorted first words, after exactly the two queries. *)
Lemma get_active_units_ok (service : string) (user : bool) (w : world H)
    out1 err1 h1 out2 err2 h2 names :
  host_run (systemctl_cmd user ++ list_unit_files_args service)%list (w_host w) = (0, out1, err1, h1) ->
  py_strip out1 <> EmptyString ->
  host_run (systemctl_cmd user ++ list_units_args service)%list h1 = (0, out2, err2, h2) ->
  mapM first_token (py_splitlines out2) = Some names ->
  get_active_units service user w =
  (inr (py_sorted names),
   after_query (after_query w (list_unit_files_args service) user err1 h1)
               (list_units_args service) user err2 h2).
Proof.
  intros Hrun1 Hs Hrun2 Hnames. unfold get_active_units.
  erewrite py_bind_inr by (apply systemctl_ok; exact Hrun1).
  rewrite py_lift_Some; cbn [py_ret py_bind]. rewrite bool_decide_false by done.
  erewrite py_bind_inr by (apply systemctl_ok; exact Hrun2).
  rewrite py_lift_Some; cbn [py_ret py_bind].
  unfold py_bind at 1. rewrite py_mapM_lift, Hnames. reflexivity.
Qed.

(** A blank line in the [list-units] output: [IndexError]. *)
Lemma get_active_units_blank_line (service : string) (user : bool) (w : world H)
    out1 err1 h1 out2 err2 h2 :
  host_run (systemctl_cmd user ++ list_unit_files_args service)%list (w_host w) = (0, out1, err1, h1) ->
  py_strip out1 <> EmptyString ->
  host_run (systemctl_cmd user ++ list_units_args service)%list h1 = (0, out2, err2, h2) ->
  mapM first_token (py_splitlines out2) = None ->
  fst (get_active_units service user w) = inl IndexError.
Proof.
  intros Hrun1 Hs Hrun2 Hnames. unfold get_active_units.
  erewrite py_bind_inr by (apply systemctl_ok; exact Hrun1).
  rewrite py_lift_Some; cbn [py_ret py_bind]. rewrite bool_decide_false by done.
  erewrite py_bind_inr by (apply systemctl_ok; exact Hrun2).
  rewrite py_lift_Some; cbn [py_ret py_bind].
  unfold py_bind at 1. rewrite py_mapM_lift, Hnames. reflexivity.
Qed.

(** [get_enabled_units]: the sorted entries of the scope's directory that
    start with [svc@]; the world is unchanged. *)
Lemma get_enabled_units_ok (service : string) (user : bool) (w : world H) path files :
  fst ((if user then py_expanduser user_wants_dir else py_ret system_wants_dir) w) = inr path ->
  host_listdir path (w_host w) = Some files ->
  get_enabled_units service user w =
  (inr (py_sorted (List.filter (fun f => py_startswith f (service +:+ "@")) files)), w).
Proof.
  intros Hp Hl. unfold get_enabled_units.
  assert ((if user then py_expanduser user_wants_dir else py_ret system_wants_dir) w
          = (inr path, w)) as Hp'.
  { destruct user; [|by simplify_eq/=]. unfold py_expanduser in *. simpl in *.
    by simplify_eq. }
  erewrite py_bind_inr by exact Hp'. unfold py_bind, py_listdir. rewrite Hl. done.
Qed.
Lemma get_active_units_ordinary (service : string) (user : bool) :
  raises_only ordinary (get_active_units service user).
Proof. unfold get_active_units. raises_only_tac. Qed.

Lemma get_enabled_units_ordinary (service : string) (user : bool) :
  raises_only ordinary (get_enabled_units service user).
Proof. unfold get_enabled_units. raises_only_tac. Qed.
End WithHost.

#[export] Hint Resolve get_active_units_ordinary get_enabled_units_ordinary : sdmpm.

End Discovery.
