(* ===== verification/Scale.v ===== *)
(** * Scale: the reconciler [scale_service]

    [scale_service(service, num_procs, user)] (src/src/sdmpm.py lines
    90-118): reject a non-integer or negative count, read the active units,
    parse their instance numbers, compare the number of units with the count
    wanted, and issue one [systemctl disable|enable --quiet --now] over the
    numbers in [current - wanted] or [wanted - current], where [wanted] is
    [{1, ..., num_procs}].

    The decision compares [len(units)] with [num_procs] but acts on set
    differences: when the running numbers are not [1..k], the two disagree
    (see the theorems of [ScaleTheory]). *)

From S2P Require Import Prelude PyStr PyEff Systemctl Discovery.
From Stdlib Require Import Ascii String.

Local Open Scope string_scope.
Local Open Scope Z_scope.
Local Open Scope sdmpm_scope.

Module Scale.
Import PyStr PyEff Systemctl Discovery.

(** The Python values [num_procs] can be: [bool] is a subclass of [int]. *)
Inductive pyval :=
| PyInt (z : Z)
| PyBool (b : bool)
| PyOther.

(** [isinstance(v, int)] *)
Definition py_isinstance_int (v : pyval) : bool :=
  match v with PyInt _ | PyBool _ => true | PyOther => false end.

(** The integer value of an [int] (or [bool]). *)
Definition py_int_value (v : pyval) : Z :=
  match v with PyInt z => z | PyBool b => if b then 1 else 0 | PyOther => 0 end.

Definition num_procs_msg : string := "num_procs must be an integer, 0 or greater".

Definition int_literal_msg (s : string) : string :=
  "invalid literal for int() with base 10: " +:+ py_repr_str s.

(** [int(s.split("@")[1].split(".")[0])] (line 97). *)
Definition unit_number (s : string) : exc + Z :=
  match py_split_on "@" s !! 1%nat with
  | None => inl IndexError
  | Some p1 =>
      match py_split_on "." p1 !! 0%nat with
      | None => inl IndexError
      | Some p0 => match py_int p0 with
                   | Some z => inr z
                   | None => inl (ValueError (int_literal_msg p0))
                   end
      end
  end.

(** [set(range(1, num_procs + 1))] (line 98). *)
Definition wanted_unit_numbers (n : Z) : gset Z := list_to_set (seqZ 1 n).

(** Lines 100-108: the command and the numbers to act on, or [None] for
    "correct number of units running". *)
Definition scale_plan (nunits : nat) (current : gset Z) (n : Z) : option (string * gset Z) :=
  if bool_decide (n < Z.of_nat nunits) then Some ("disable", current ∖ wanted_unit_numbers n)
  else if bool_decide (Z.of_nat nunits < n) then Some ("enable", wanted_unit_numbers n ∖ current)
  else None.

Definition correct_msg : string := "correct number of units running, not doing anything".

(** The report of lines 112-115. *)
Definition scale_msg (nunits : nat) (n : Z) (cmd : string) (nums : list string) : string :=
  py_str_Z (Z.of_nat nunits) +:+ " units running, wanted " +:+ py_str_Z n +:+ " - will "
  +:+ cmd +:+ " service numbers: " +:+ py_join ", " nums.

(** [sorted([str(i) for i in service_nums])] (line 110). *)
Definition service_num_strs (todo : gset Z) : list string :=
  py_sorted (map py_str_Z (elements todo)).

(** [[(service + "@" + s) for s in service_nums]] (line 116). *)
Definition service_names (service : string) (nums : list string) : list string :=
  map (fun s => service +:+ "@" +:+ s) nums.

(** The arguments of the one acting call (line 118). *)
Definition action_args (service : string) (cmd : string) (todo : gset Z) : list string :=
  [cmd; "--quiet"; "--now"] ++ service_names service (service_num_strs todo).

Section WithHost.
Context {H : Type} `{!Host H}.

Definition scale_service (service : string) (num_procs : pyval) (user : bool) : PyM H unit :=
  if negb (py_isinstance_int num_procs) || bool_decide (py_int_value num_procs < 0)
  then py_raise (ValueError num_procs_msg)
  else
    let n := py_int_value num_procs in
    units <- get_active_units service user ;;
    nums <- py_mapM (fun s => py_of_sum (unit_number s)) units ;;
    match scale_plan (List.length units) (list_to_set nums) n with
    | None => py_print correct_msg
    | Some (cmd, todo) =>
        py_print (scale_msg (List.length units) n cmd (service_num_strs todo)) ;;
        _ <- systemctl (action_args service cmd todo) user false ;;
        py_ret tt
    end.
Lemma unit_number_ordinary (s : string) : raises_only ordinary (H:=H) (py_of_sum (unit_number s)).
Proof.
  apply raises_only_of_sum. intros e. unfold unit_number.
  by repeat case_match; intros [= <-].
Qed.

#[local] Hint Resolve unit_number_ordinary : sdmpm.

Lemma scale_service_ordinary (service : string) (v : pyval) (user : bool) :
  raises_only ordinary (scale_service service v user).
Proof. unfold scale_service. raises_only_tac. Qed.
End WithHost.

#[export] Hint Resolve scale_service_ordinary : sdmpm.

(** The name systemd lists for instance [i] of [service]. *)
Definition unit_file (service : string) (i : Z) : string :=
  service +:+ "@" +:+ py_str_Z i +:+ ".service".

(** The instance number parsed back from [unit_file service i] is [i]. *)
Lemma unit_number_of_unit_file (service : string) (i : Z) :
  char_in "@" service = false -> unit_number (unit_file service i) = inr i.
Proof.
  intros Hs. unfold unit_number, unit_file.
  rewrite str_app_cons, str_app_nil_l.
  rewrite py_split_on_app_sep by done.
  rewrite (py_split_on_no_sep "@" (py_str_Z i +:+ ".service")).
  2:{ rewrite char_in_app, char_in_py_str_Z by reflexivity. reflexivity. }
  simpl. rewrite py_split_on_app_sep by (apply char_in_py_str_Z; reflexivity).
  simpl. by rewrite py_int_py_str_Z.
Qed.

Lemma sum_mapM_unit_number (service : string) (l : list Z) :
  char_in "@" service = false -> sum_mapM unit_number (map (unit_file service) l) = inr l.
Proof.
  intros Hs. induction l as [|i l IH]; [done|]. simpl.
  by rewrite unit_number_of_unit_file, IH.
Qed.

Example unit_number_ex :
  unit_number "worker@12.service" = inr 12
  /\ unit_number "worker.service" = inl IndexError
  /\ unit_number "worker@x.service" = inl (ValueError (int_literal_msg "x")).
Proof. repeat split; reflexivity. Qed.

Example scale_plan_ex :
  scale_plan 2 {[1; 3]} 2 = None
  /\ scale_plan 0 ∅ 3 = Some ("enable", {[1; 2; 3]})
  /\ service_num_strs {[1; 2; 10]} = ["1"; "10"; "2"].
Proof. repeat split; vm_compute; reflexivity. Qed.

End Scale.

Module ScaleTheory.
Import PyStr PyEff Systemctl Discovery Scale.

(** [{1, ..., k}] *)
Definition range_set (k : Z) : gset Z := list_to_set (seqZ 1 k).

(** The effect a plan asks systemd for: [enable --now] adds the numbers,
    [disable --now] removes them. *)
Definition apply_action (cmd : string) (todo current : gset Z) : gset Z :=
  if bool_decide (cmd = "enable") then current ∪ todo
  else if bool_decide (cmd = "disable") then current ∖ todo
  else current.

(** The running numbers after one [scale_service] whose acting call
    succeeds. *)
Definition after_scale (nunits : nat) (current : gset Z) (n : Z) : gset Z :=
  match scale_plan nunits current n with
  | None => current
  | Some (cmd, todo) => apply_action cmd todo current
  end.

Lemma size_range_set' (k : Z) : 0 <= k -> Z.of_nat (size (range_set k)) = k.
Proof. intros Hk. unfold range_set. rewrite size_range_set. lia. Qed.

(** The plan when the running numbers are exactly [1..k]: disable
    [n+1..k] when there are too many, enable [k+1..n] when too few,
    nothing when [k = n]. *)
Lemma scale_plan_contiguous (k n : Z) :
  0 <= k -> 0 <= n ->
  scale_plan (Z.to_nat k) (range_set k) n =
  if bool_decide (n < k) then Some ("disable", list_to_set (seqZ (n + 1) (k - n)))
  else if bool_decide (k < n) then Some ("enable", list_to_set (seqZ (k + 1) (n - k)))
  else None.
Proof.
  intros Hk Hn. unfold scale_plan, wanted_unit_numbers, range_set. rewrite Z2Nat.id by lia.
  repeat case_bool_decide; try lia; do 2 f_equal; range_set_solver.
Qed.

(** From [1..k] running, one successful [scale_service n] leaves exactly
    [1..n] running. *)
Theorem after_scale_contiguous (k n : Z) :
  0 <= k -> 0 <= n -> after_scale (Z.to_nat k) (range_set k) n = range_set n.
Proof.
  intros Hk Hn. unfold after_scale. rewrite scale_plan_contiguous by done.
  unfold apply_action, range_set.
  repeat case_bool_decide; simplify_eq; try lia; range_set_solver.
Qed.

Lemma after_scale_size_contiguous (k n : Z) :
  0 <= k -> 0 <= n -> after_scale (size (range_set k)) (range_set k) n = range_set n.
Proof.
  intros Hk Hn. rewrite <- (after_scale_contiguous k n) by done. f_equal.
  unfold range_set. apply size_range_set.
Qed.

(** The states of running numbers reachable from none by successful
    [scale_service] calls with non-negative counts, when the tool is the
    only actor (each unit listed once). *)
Inductive scale_reachable : gset Z -> Prop :=
| reach_none : scale_reachable ∅
| reach_scale (s : gset Z) (n : Z) :
    scale_reachable s -> 0 <= n -> scale_reachable (after_scale (size s) s n).

#[export] Hint Constructors scale_reachable : sdmpm.

(** C2: Invariant: every reachable state is [1..k] for its size [k]. *)
Theorem scale_reachable_contiguous (s : gset Z) :
  scale_reachable s -> s = range_set (Z.of_nat (size s)).
Proof.
  induction 1 as [|s n _ IH Hn]; [done|].
  assert (after_scale (size s) s n = range_set n) as ->.
  { rewrite IH. apply after_scale_size_contiguous; lia. }
  by rewrite size_range_set'.
Qed.

(** C1: Convergence and idempotence: from [1..k] running, one successful
    [scale_service n] leaves exactly [1..n] running, and a second
    [scale_service n] then plans nothing (no write call). *)
Theorem scale_converges (k n : Z) :
  0 <= k -> 0 <= n ->
  after_scale (Z.to_nat k) (range_set k) n = range_set n
  /\ scale_plan (size (range_set n)) (range_set n) n = None.
Proof.
  intros Hk Hn. split; [by apply after_scale_contiguous|].
  assert (size (range_set n) = Z.to_nat n) as -> by apply size_range_set.
  rewrite scale_plan_contiguous by done. by rewrite !bool_decide_false by lia.
Qed.

(** C4: Safety of the targets: [disable] only touches running numbers outside
    [1..n]; [enable] only numbers of [1..n] that are not running. *)
Theorem scale_plan_targets (nunits : nat) (current : gset Z) (n : Z) (cmd : string) (todo : gset Z) :
  scale_plan nunits current n = Some (cmd, todo) ->
  (cmd = "disable" /\ todo ⊆ current /\ (forall i, i ∈ todo -> i < 1 \/ n < i))
  \/ (cmd = "enable" /\ todo ## current /\ (forall i, i ∈ todo -> 1 <= i <= n)).
Proof.
  unfold scale_plan, wanted_unit_numbers.
  destruct (decide (n < Z.of_nat nunits)) as [Hlt|Hlt];
    [rewrite bool_decide_true by done | rewrite bool_decide_false by done;
     destruct (decide (Z.of_nat nunits < n)) as [Hgt|Hgt];
     [rewrite bool_decide_true by done | rewrite bool_decide_false by done; done]].
  - intros [= <- <-]. left. split; [done|split]; [set_solver|]. intros i [_ Hi]%elem_of_difference.
    rewrite elem_of_range_set in Hi. lia.
  - intros [= <- <-]. right. split; [done|split]; [set_solver|]. intros i [Hi _]%elem_of_difference.
    by rewrite elem_of_range_set in Hi.
Qed.

(** C18: The [enable] branch always has work: when [len(units) < num_procs]
    and the units carry at most [len(units)] numbers, [wanted - current] is
    not empty. *)
Theorem scale_plan_enable_nonempty (nunits : nat) (current : gset Z) (n : Z) (todo : gset Z) :
  (size current <= nunits)%nat ->
  scale_plan nunits current n = Some ("enable", todo) -> todo <> ∅.
Proof.
  intros Hsz. unfold scale_plan, wanted_unit_numbers.
  destruct (decide (n < Z.of_nat nunits)) as [Hlt|Hlt];
    [rewrite bool_decide_true by done; by intros [=] | rewrite bool_decide_false by done].
  destruct (decide (Z.of_nat nunits < n)) as [Hgt|Hgt];
    [rewrite bool_decide_true by done | by rewrite bool_decide_false].
  intros [= <-]. intros Hemp.
  assert (list_to_set (seqZ 1 n) ⊆ current) as Hsub.
  { intros i Hi. destruct (decide (i ∈ current)); [done|]. set_solver. }
  apply subseteq_size in Hsub. rewrite size_range_set in Hsub. lia.
Qed.

(** C5: The no-op test compares counts only: whenever as many units are
    listed as wanted, nothing is done, even when the running numbers are not
    [1..n] (e.g. [{1, 3}] scaled to 2 keeps 3 running and never starts 2),
    so the state does not converge to [1..n]. *)
Theorem scale_plan_count_only (current : gset Z) (n : Z) :
  Z.of_nat (size current) = n -> current <> range_set n ->
  scale_plan (size current) current n = None
  /\ after_scale (size current) current n = current
  /\ after_scale (size current) current n <> range_set n.
Proof.
  intros Hn Hne. unfold after_scale, scale_plan.
  rewrite !bool_decide_false by lia. done.
Qed.

(** C6: Running numbers all above the count: when more units are listed than
    wanted and every running number is above [n], [current - wanted] is all
    of them, so every instance is disabled and none is left (e.g. [{5, 6, 7}]
    scaled to 2). *)
Theorem scale_plan_disable_all (nunits : nat) (current : gset Z) (n : Z) :
  n < Z.of_nat nunits -> (forall i, i ∈ current -> n < i) ->
  scale_plan nunits current n = Some ("disable", current)
  /\ after_scale nunits current n = ∅.
Proof.
  intros Hlt Hc.
  assert (scale_plan nunits current n = Some ("disable", current)) as Hp.
  { unfold scale_plan, wanted_unit_numbers. rewrite bool_decide_true by done.
    do 2 f_equal. apply set_eq. intros i. rewrite elem_of_difference, elem_of_range_set.
    split; [tauto|]. intros Hi. split; [done|]. specialize (Hc i Hi). lia. }
  split; [done|]. unfold after_scale, apply_action. rewrite Hp. simpl. set_solver.
Qed.

(** C20: The acting call names the instances in the lexicographic order of
    their decimal strings, not in numeric order: of two numbers to act on,
    the one whose [str] is lexicographically smaller comes first (so
    [svc@10] comes before [svc@2]). *)
Theorem action_args_string_order (service cmd : string) (todo : gset Z) (i j : Z) :
  i ∈ todo -> j ∈ todo -> i <> j -> String.le (py_str_Z i) (py_str_Z j) ->
  exists l1 l2 l3, action_args service cmd todo =
    ([cmd; "--quiet"; "--now"] ++ l1 ++ (service +:+ "@" +:+ py_str_Z i) :: l2
     ++ (service +:+ "@" +:+ py_str_Z j) :: l3)%list.
Proof.
  intros Hi Hj Hne Hle. unfold action_args, service_names, service_num_strs.
  destruct (py_sorted_order (map py_str_Z (elements todo)) (py_str_Z i) (py_str_Z j))
    as (l1 & l2 & l3 & ->); try done.
  - apply list_elem_of_fmap_2, elem_of_elements. done.
  - apply list_elem_of_fmap_2, elem_of_elements. done.
  - intros E. by apply Hne, py_str_Z_inj.
  - rewrite !map_app. simpl. rewrite map_app. simpl. eexists _, _, _. reflexivity.
Qed.

(** C21: More names than wanted but no number outside [1..n] (two names with
    one number, e.g. [worker@1] and [worker@01] with one wanted): the
    [disable] branch is taken with nothing to act on, and the acting call is
    [systemctl disable --quiet --now] with no unit at all. *)
Theorem scale_plan_disable_nothing (service : string) (nunits : nat) (current : gset Z) (n : Z) :
  n < Z.of_nat nunits -> current ⊆ wanted_unit_numbers n ->
  scale_plan nunits current n = Some ("disable", ∅)
  /\ action_args service "disable" ∅ = ["disable"; "--quiet"; "--now"].
Proof.
  intros Hlt Hsub. unfold scale_plan. rewrite bool_decide_true by done.
  split; [do 2 f_equal; set_solver | reflexivity].
Qed.

(** C10: Round trip: the instance number parsed back from the name systemd lists
    for [service@i] is [i], for a template name without ['@']. *)
Theorem unit_number_unit_file (service : string) (i : Z) :
  char_in "@" service = false -> unit_number (unit_file service i) = inr i.
Proof. apply unit_number_of_unit_file. Qed.

Section WithHost.
Context {H : Type} `{!Host H}.

(** C9: A non-integer or negative count raises [ValueError] before anything
    else: no process is started and nothing is printed. *)
Theorem scale_service_rejects (service : string) (v : pyval) (user : bool) (w : world H) :
  py_isinstance_int v = false \/ py_int_value v < 0 ->
  scale_service service v user w = (inl (ValueError num_procs_msg), w).
Proof.
  intros Hv. unfold scale_service.
  destruct Hv as [-> | Hv]; [done|]. rewrite bool_decide_true by done.
  by rewrite orb_true_r.
Qed.

(** After discovery returned [units] that all parse, [scale_service]
    prints and makes the one acting call of the plan, or prints that
    nothing is to be done. *)
Lemma scale_service_after_discovery (service : string) (n : Z) (user : bool)
    (w w1 : world H) (units : list string) (nums : list Z) :
  0 <= n ->
  get_active_units service user w = (inr units, w1) ->
  sum_mapM unit_number units = inr nums ->
  scale_service service (PyInt n) user w =
  match scale_plan (List.length units) (list_to_set nums) n with
  | None => py_print correct_msg w1
  | Some (cmd, todo) =>
      (py_print (scale_msg (List.length units) n cmd (service_num_strs todo)) ;;
       _ <- systemctl (action_args service cmd todo) user false ;; py_ret tt) w1
  end.
Proof.
  intros Hn Hget Hnums. unfold scale_service. simpl.
  rewrite bool_decide_false by lia. simpl.
  erewrite py_bind_inr by exact Hget.
  unfold py_bind at 1. rewrite py_mapM_of_sum, Hnums.
  by destruct (scale_plan _ _ _) as [[cmd todo]|].
Qed.

(** The calls of the acting step: exactly one process, whatever it returns. *)
Lemma acting_call_calls (msg : string) (args : list string) (user : bool) (w : world H) :
  w_calls (snd ((py_print msg ;; _ <- systemctl args user false ;; py_ret tt) w))
  = (w_calls w ++ [(systemctl_cmd user ++ args)%list])%list.
Proof.
  unfold py_bind at 1. cbn [py_print].
  destruct (host_run (systemctl_cmd user ++ args)%list (w_host w))
    as [[[code out] err] h'] eqn:Hrun.
  destruct (Z.eq_dec code 0) as [->|Hc].
  - erewrite py_bind_inr by (apply systemctl_ok; exact Hrun). done.
  - erewrite py_bind_inl by (apply (systemctl_fail _ _ _ _ code); [exact Hc | exact Hrun]). done.
Qed.

(** C3: One batched write at most: after the two queries of discovery,
    [scale_service] starts exactly the acting process of its plan, or none,
    whatever that process returns. *)
Theorem scale_service_calls (service : string) (n : Z) (user : bool)
    (w w1 : world H) (units : list string) (nums : list Z) :
  0 <= n ->
  get_active_units service user w = (inr units, w1) ->
  sum_mapM unit_number units = inr nums ->
  w_calls (snd (scale_service service (PyInt n) user w)) =
  (w_calls w1 ++
   match scale_plan (List.length units) (list_to_set nums) n with
   | None => []
   | Some (cmd, todo) => [(systemctl_cmd user ++ action_args service cmd todo)%list]
   end)%list.
Proof.
  intros Hn Hget Hnums. rewrite (scale_service_after_discovery _ _ _ _ _ _ _ Hn Hget Hnums).
  destruct (scale_plan _ _ _) as [[cmd todo]|]; [|by rewrite app_nil_r].
  apply acting_call_calls.
Qed.

(** C19: End-to-end reconciliation: when discovery lists [service@i.service]
    once for each [i] of [1..k], [scale_service n] either makes the one
    acting call of its plan, whose effect on the running numbers is exactly
    [1..n], or (when [k = n]) starts no process. *)
Theorem scale_service_reconciles (service : string) (k n : Z) (user : bool)
    (w w1 : world H) (l : list Z) :
  char_in "@" service = false -> 0 <= k -> 0 <= n ->
  NoDup l -> list_to_set l = range_set k ->
  get_active_units service user w = (inr (map (unit_file service) l), w1) ->
  (exists cmd todo,
     w_calls (snd (scale_service service (PyInt n) user w))
     = (w_calls w1 ++ [(systemctl_cmd user ++ action_args service cmd todo)%list])%list
     /\ apply_action cmd todo (range_set k) = range_set n)
  \/ (k = n /\ w_calls (snd (scale_service service (PyInt n) user w)) = w_calls w1).
Proof.
  intros Hs Hk Hn Hnd Hl Hget.
  rewrite (scale_service_after_discovery _ _ _ _ _ _ _ Hn Hget (sum_mapM_unit_number _ _ Hs)).
  rewrite length_map, Hl.
  assert (size (list_to_set l : gset Z) = List.length l) as Hsz by by apply size_list_to_set.
  rewrite Hl in Hsz. unfold range_set in Hsz. rewrite size_range_set in Hsz. rewrite <- Hsz.
  pose proof (after_scale_contiguous k n Hk Hn) as Hafter. unfold after_scale in Hafter.
  destruct (scale_plan _ _ _) as [[cmd todo]|] eqn:Hp.
  - left. exists cmd, todo. split; [apply acting_call_calls | done].
  - right. split; [|done].
    rewrite scale_plan_contiguous in Hp by done. revert Hp.
    repeat case_bool_decide; intros; simplify_eq; lia.
Qed.
End WithHost.

End ScaleTheory.
