(* ===== verification/Control.v ===== *)
(** * Control: lifecycle commands over all instances of a template

    [control_active_units(cmd, service)] (src/src/sdmpm.py lines 121-129),
    used for status/stop/restart: the active units, or the enabled ones when
    none is active, and nothing at all when both are empty.
    [control_units(cmd, service)] (lines 132-135), used for
    start/enable/disable: always the enabled units, even when there are
    none. *)

From S2P Require Import Prelude PyStr PyEff Systemctl Discovery.
From Stdlib Require Import Ascii String.

Local Open Scope string_scope.
Local Open Scope Z_scope.
Local Open Scope sdmpm_scope.

Module Control.
Import PyStr PyEff Systemctl Discovery.

Definition no_units_msg (service : string) : string := "no units found for " +:+ service.

Section WithHost.
Context {H : Type} `{!Host H}.

Definition control_active_units (cmd service : string) (user : bool) : PyM H unit :=
  units <- get_active_units service user ;;
  units <- (match units with
            | [] => get_enabled_units service user
            | _ => py_ret units
            end) ;;
  match units with
  | [] => py_print (no_units_msg service)
  | _ => _ <- systemctl (cmd :: units) user false ;; py_ret tt
  end.

Definition control_units (cmd service : string) (user : bool) : PyM H unit :=
  units <- get_enabled_units service user ;;
  _ <- systemctl (cmd :: units) user false ;;
  py_ret tt.

(** The one acting call: whatever it returns, it records exactly its
    argument vector. *)
Lemma act_calls (args : list string) (user : bool) (w : world H) :
  w_calls (snd ((_ <- systemctl args user false ;; py_ret tt) w))
  = (w_calls w ++ [(systemctl_cmd user ++ args)%list])%list.
Proof.
  destruct (host_run (systemctl_cmd user ++ args)%list (w_host w)) as [[[code out] err] h'] eqn:Hrun.
  destruct (Z.eq_dec code 0) as [->|Hc].
  - erewrite py_bind_inr by (apply systemctl_ok; exact Hrun). done.
  - erewrite py_bind_inl by (apply (systemctl_fail _ _ _ _ code); [exact Hc | exact Hrun]). done.
Qed.

Lemma control_active_units_eq (cmd service : string) (user : bool) (w w1 w2 : world H) units units' :
  get_active_units service user w = (inr units, w1) ->
  (match units with [] => get_enabled_units service user | _ => py_ret units end) w1
    = (inr units', w2) ->
  control_active_units cmd service user w =
  match units' with
  | [] => py_print (no_units_msg service) w2
  | _ => (_ <- systemctl (cmd :: units') user false ;; py_ret tt) w2
  end.
Proof.
  intros Hget Hsel. unfold control_active_units.
  erewrite py_bind_inr by exact Hget. erewrite py_bind_inr by exact Hsel.
  by destruct units'.
Qed.

(** C13: Active units found: the command goes to exactly them, in one process;
    the enabled-units directory is not read. *)
Theorem control_active_units_active (cmd service : string) (user : bool) (w w1 : world H) u us :
  get_active_units service user w = (inr (u :: us), w1) ->
  w_calls (snd (control_active_units cmd service user w))
  = (w_calls w1 ++ [(systemctl_cmd user ++ cmd :: u :: us)%list])%list.
Proof.
  intros Hget. erewrite control_active_units_eq by (exact Hget || reflexivity).
  apply act_calls.
Qed.

(** C11: None active (e.g. crashed but enabled instances): the command goes to
    exactly the enabled units, in one process. *)
Theorem control_active_units_fallback (cmd service : string) (user : bool) (w w1 : world H) u us :
  get_active_units service user w = (inr [], w1) ->
  get_enabled_units service user w1 = (inr (u :: us), w1) ->
  w_calls (snd (control_active_units cmd service user w))
  = (w_calls w1 ++ [(systemctl_cmd user ++ cmd :: u :: us)%list])%list.
Proof.
  intros Hget Hen. erewrite control_active_units_eq by (exact Hget || exact Hen).
  apply act_calls.
Qed.

(** C12: Neither active nor enabled units: no process after discovery, and the
    message [no units found for svc]. *)
Theorem control_active_units_none (cmd service : string) (user : bool) (w w1 : world H) :
  get_active_units service user w = (inr [], w1) ->
  get_enabled_units service user w1 = (inr [], w1) ->
  control_active_units cmd service user w
  = (inr tt, mk_world (w_host w1) (w_out w1 ++ [no_units_msg service]) (w_err w1) (w_calls w1)).
Proof.
  intros Hget Hen. erewrite control_active_units_eq by (exact Hget || exact Hen). done.
Qed.

(** C14: [control_units] always acts on the enabled units, active or not, and
    makes its call even when there are none (a [systemctl start] with no
    unit name). *)
Theorem control_units_enabled (cmd service : string) (user : bool) (w : world H) units :
  get_enabled_units service user w = (inr units, w) ->
  w_calls (snd (control_units cmd service user w))
  = (w_calls w ++ [(systemctl_cmd user ++ cmd :: units)%list])%list.
Proof.
  intros Hen. unfold control_units. erewrite py_bind_inr by exact Hen. apply act_calls.
Qed.
Lemma control_active_units_ordinary (cmd service : string) (user : bool) :
  raises_only ordinary (control_active_units cmd service user).
Proof. unfold control_active_units. raises_only_tac. Qed.

Lemma control_units_ordinary (cmd service : string) (user : bool) :
  raises_only ordinary (control_units cmd service user).
Proof. unfold control_units. raises_only_tac. Qed.
End WithHost.

#[export] Hint Resolve control_active_units_ordinary control_units_ordinary : sdmpm.

End Control.
