(* ===== verification/Main.v ===== *)
(** * Main: command dispatch and exit status

    [main()] (src/src/sdmpm.py lines 157-177) after argument parsing: the
    dispatch of the sub-command to [scale_service], [control_active_units]
    or [control_units], and the handlers that turn a [SystemctlException]
    into exit status 2 and a [UserError] into exit status 3.  The parser's
    declaration (lines 142-153) is modelled by the type of its result: the
    sub-command is one of the seven choices of [add_parser] ([subcmd]), and
    [cli_args] holds the fields of the namespace.  Parsing itself (argparse,
    which prints a usage message and exits with status 2 on a command line
    it rejects) is library code and is not modelled: [main] starts from a
    command line argparse accepted.

    Since no function raises [SystemctlException] (see [Systemctl]), the
    handler for it is dead code: a failing [systemctl] ends the program with
    an uncaught [AttributeError], exit status 1. *)

From S2P Require Import Prelude PyStr PyEff Systemctl Discovery Scale Control.
From Stdlib Require Import Ascii String.

Local Open Scope string_scope.
Local Open Scope Z_scope.
Local Open Scope sdmpm_scope.

Module Main.
Import PyStr PyEff Systemctl Discovery Scale Control.

(** The sub-parsers of lines 143-149: argparse sets [args.cmd] to the name
    of one of them. *)
Inductive subcmd := Cscale | Cstatus | Cstart | Cstop | Crestart | Cenable | Cdisable.

Definition subcmd_name (c : subcmd) : string :=
  match c with
  | Cscale => "scale" | Cstatus => "status" | Cstart => "start" | Cstop => "stop"
  | Crestart => "restart" | Cenable => "enable" | Cdisable => "disable"
  end.

(** The parsed command line: [args.cmd] ([None] when no sub-command is
    given), [args.service], [args.num_procs] ([type=int], read only by
    [scale]), [args.user], and the text of [parser.print_help()]. *)
Record cli_args := mk_args {
  a_cmd : option subcmd;
  a_service : string;
  a_num_procs : Z;
  a_user : bool;
  a_help : string;
}.

Definition unknown_cmd_msg (c : string) : string := "unknown command or not implemented: " +:+ c.

(** The exit status of the process for the outcome of [main()]: [0] when it
    returns, the code of [SystemExit], and [1] for an uncaught exception. *)
Definition exit_status {A} (r : exc + A) : Z :=
  match r with
  | inr _ => 0
  | inl (SystemExit c) => c
  | inl _ => 1
  end.

Section WithHost.
Context {H : Type} `{!Host H}.

(** Lines 158-168. *)
Definition main_dispatch (a : cli_args) : PyM H unit :=
  match option_map subcmd_name (a_cmd a) with
  | Some c =>
      if bool_decide (c = "scale") then scale_service (a_service a) (PyInt (a_num_procs a)) (a_user a)
      else if bool_decide (c ∈ ["status"; "stop"; "restart"]) then control_active_units c (a_service a) (a_user a)
      else if bool_decide (c ∈ ["start"; "enable"; "disable"]) then control_units c (a_service a) (a_user a)
      else py_print (unknown_cmd_msg c) ;; py_raise (SystemExit 1)
  | None => py_print (a_help a)
  end.

(** Lines 169-177. *)
Definition main_handler (e : exc) : option (PyM H unit) :=
  match e with
  | SystemctlException msg _ cmd stderr =>
      Some (py_print msg ;;
            py_print ("cmd: " +:+ py_repr_list cmd) ;;
            (if bool_decide (stderr = EmptyString) then py_ret tt
             else py_print ("stderr:" +:+ String "010" stderr)) ;;
            py_raise (SystemExit 2))
  | UserError msg => Some (py_print msg ;; py_raise (SystemExit 3))
  | _ => None
  end.

Definition main (a : cli_args) : PyM H unit := py_catch (main_dispatch a) (main_handler).

(** The sub-command is one of argparse's choices, so the [else] branch
    (unknown command, [sys.exit(1)]) is dead and [main_dispatch] raises only
    what the components raise. *)
Lemma main_dispatch_raises (a : cli_args) : raises_only ordinary (main_dispatch a).
Proof.
  unfold main_dispatch. destruct (a_cmd a) as [c|]; [|apply raises_only_print].
  simpl. repeat case_match; try solve [eauto with sdmpm].
  exfalso. repeat match goal with Hb : bool_decide _ = false |- _ => apply bool_decide_eq_false in Hb end.
  destruct c; set_solver.
Qed.

(** C7: For every command line that argparse accepts, [main] ends with exit
    status 0, 1 or 3, never 2: the handler for [SystemctlException] cannot
    run, so a failing [systemctl] is reported by an uncaught
    [AttributeError] (status 1), not as a manager failure (status 2).  The
    only status 2 of the program is argparse's own usage error, before
    [main]'s [try] block. *)
Theorem main_exit_status (a : cli_args) (w : world H) :
  exit_status (fst (main a w)) = 0 \/ exit_status (fst (main a w)) = 1
  \/ exit_status (fst (main a w)) = 3.
Proof.
  unfold main, py_catch.
  destruct (main_dispatch a w) as [[e|u] w'] eqn:E; [|by left].
  pose proof (main_dispatch_raises a w e w' E) as Ho.
  destruct e; simpl in Ho; try contradiction; simpl; auto.
Qed.

(** C17: A negative count on the command line ([scale svc -1]): [ValueError]
    escapes [main] before any process is started, exit status 1. *)
Theorem main_scale_negative (a : cli_args) (w : world H) :
  a_cmd a = Some Cscale -> a_num_procs a < 0 ->
  main a w = (inl (ValueError num_procs_msg), w) /\ exit_status (fst (main a w)) = 1.
Proof.
  intros Hc Hn. unfold main, main_dispatch, py_catch. rewrite Hc. simpl.
  unfold scale_service. simpl. rewrite bool_decide_true by done. done.
Qed.
End WithHost.

End Main.
