(* ===== verification/RefHost.v ===== *)
(** * RefHost: a reference model of systemd and the file system

    The external collaborator of the specification (section 6): a service
    manager with a system and a user scope, each holding its unit files,
    its loaded units and its enabled units (the links of
    [multi-user.target.wants]).  [systemctl] is interpreted on the argument
    vectors sdmpm.py builds; [os.listdir] of a scope's wants directory lists
    its enabled units.  Not code of the repository: it is modelled from the
    specification, so that the program's theorems can be evaluated on
    concrete hosts. *)

From S2P Require Import Prelude PyStr PyEff Systemctl Discovery.
From Stdlib Require Import Ascii String.

Local Open Scope string_scope.
Local Open Scope Z_scope.

Module RefHost.
Import PyStr PyEff Systemctl Discovery.

Record scope := mk_scope {
  sc_files : list string;     (* unit files, e.g. "worker@.service" *)
  sc_loaded : list string;    (* loaded (active) units, e.g. "worker@1.service" *)
  sc_enabled : list string;   (* enabled units: the wants directory *)
}.

Record refhost := mk_refhost {
  rh_system : scope;
  rh_user : scope;
  rh_home : string;
}.

(** Shell-style glob with [*] only. *)
Fixpoint glob_match (p s : string) : bool :=
  match p with
  | EmptyString => match s with EmptyString => true | _ => false end
  | String "*"%char p' =>
      (fix star (t : string) : bool :=
         glob_match p' t || match t with EmptyString => false | String _ t' => star t' end) s
  | String c p' =>
      match s with
      | EmptyString => false
      | String d s' => Ascii.eqb c d && glob_match p' s'
      end
  end.

Fixpoint str_suffix (suf s : string) : bool :=
  String.eqb suf s || match s with EmptyString => false | String _ s' => str_suffix suf s' end.

(** systemd appends [.service] to a name without a unit suffix. *)
Definition mangle (name : string) : string :=
  if str_suffix ".service" name then name else name +:+ ".service".

(** The template unit file of an instance name: [a@b.service] has
    [a@.service]. *)
Definition template_of (u : string) : string :=
  match py_split_on "@" u with
  | prefix :: _ :: _ => prefix +:+ "@.service"
  | _ => u
  end.

Definition list_add (x : string) (l : list string) : list string :=
  if bool_decide (x ∈ l) then l else l ++ [x].

Definition list_del (x : string) (l : list string) : list string :=
  List.filter (fun y => negb (String.eqb x y)) l.

Definition lines (l : list string) : string :=
  foldr (fun x acc => x +:+ String "010" acc) EmptyString l.

(** One [systemctl] sub-command on a scope: exit code, standard output,
    standard error, the scope afterwards. *)
Definition scope_run (args : list string) (sc : scope) : Z * string * string * scope :=
  let known := fun names => forallb (fun n => bool_decide (template_of (mangle n) ∈ sc_files sc)) names in
  let upd := fun f g => mk_scope (sc_files sc) (f (sc_loaded sc)) (g (sc_enabled sc)) in
  match args with
  | ["list-unit-files"; "--"; pat] =>
      (0, lines (map (fun f => f +:+ " indirect enabled")
                     (List.filter (glob_match pat) (sc_files sc))), EmptyString, sc)
  | ["list-units"; "--all"; "--"; pat] =>
      (0, lines (map (fun u => u +:+ " loaded active running " +:+ u)
                     (List.filter (glob_match pat) (sc_loaded sc))), EmptyString, sc)
  | cmd :: rest =>
      let now := match rest with "--quiet" :: "--now" :: _ => true | _ => false end in
      let names := map mangle (match rest with "--quiet" :: "--now" :: ns => ns | ns => ns end) in
      if bool_decide (names = []) then (1, EmptyString, "Too few arguments.", sc)
      else if negb (known names) then (1, EmptyString, "Unit file does not exist.", sc)
      else if bool_decide (cmd = "enable") then
        (0, EmptyString, EmptyString,
         upd (fun l => if now then foldl (fun acc n => list_add n acc) l names else l)
             (fun l => foldl (fun acc n => list_add n acc) l names))
      else if bool_decide (cmd = "disable") then
        (0, EmptyString, EmptyString,
         upd (fun l => if now then foldl (fun acc n => list_del n acc) l names else l)
             (fun l => foldl (fun acc n => list_del n acc) l names))
      else if bool_decide (cmd = "start") || bool_decide (cmd = "restart") then
        (0, EmptyString, EmptyString, upd (fun l => foldl (fun acc n => list_add n acc) l names) id)
      else if bool_decide (cmd = "stop") then
        (0, EmptyString, EmptyString, upd (fun l => foldl (fun acc n => list_del n acc) l names) id)
      else if bool_decide (cmd = "status") then
        (if forallb (fun n => bool_decide (n ∈ sc_loaded sc)) names then 0 else 3,
         lines (map (fun n => n +:+ " - " +:+ n) names), EmptyString, sc)
      else (1, EmptyString, "Unknown command verb.", sc)
  | [] => (1, EmptyString, "Too few arguments.", sc)
  end.

Definition refhost_run (argv : list string) (h : refhost) : Z * string * string * refhost :=
  match argv with
  | "systemctl" :: "--no-legend" :: "--no-pager" :: "--user" :: args =>
      let '(c, o, e, sc') := scope_run args (rh_user h) in (c, o, e, mk_refhost (rh_system h) sc' (rh_home h))
  | "systemctl" :: "--no-legend" :: "--no-pager" :: args =>
      let '(c, o, e, sc') := scope_run args (rh_system h) in (c, o, e, mk_refhost sc' (rh_user h) (rh_home h))
  | _ => (127, EmptyString, "command not found", h)
  end.

Definition user_wants_path (h : refhost) : string :=
  match rstrip_slash (rh_home h) +:+ "/.config/systemd/user/multi-user.target.wants" with
  | EmptyString => "/"
  | r => r
  end.

Definition refhost_listdir (path : string) (h : refhost) : option (list string) :=
  if bool_decide (path = system_wants_dir) then Some (sc_enabled (rh_system h))
  else if bool_decide (path = user_wants_path h) then Some (sc_enabled (rh_user h))
  else None.

#[export] Instance refhost_host : Host refhost := {
  host_run := refhost_run;
  host_listdir := refhost_listdir;
  host_home := rh_home;
}.

(** A user scope with the [worker@.service] template and the given loaded
    and enabled units, home [/home/u]. *)
Definition worker_host (loaded enabled : list string) : refhost :=
  mk_refhost (mk_scope [] [] []) (mk_scope ["worker@.service"] loaded enabled) "/home/u".

Example glob_match_ex :
  glob_match "worker@*.service" "worker@12.service" = true
  /\ glob_match "worker@*.service" "worker.service" = false
  /\ mangle "worker@3" = "worker@3.service" /\ template_of "worker@3.service" = "worker@.service".
Proof. repeat split; reflexivity. Qed.

End RefHost.
