(* ===== verification/Scenarios.v ===== *)
(** * Scenarios: the program run on the reference host

    Runs of the modelled sdmpm.py on [RefHost] hosts: the repository's two
    tests (src/tests/test_sdmpm.py) and the crash on two names with one
    instance number, as Examples evaluated by [vm_compute], and the concrete
    instances (witnesses) of the development's theorems that have
    hypotheses, each discharging the hypotheses by evaluation. *)

From S2P Require Import Prelude PyStr PyEff Systemctl Discovery Scale Control Main RefHost.
From Stdlib Require Import Ascii String.

Local Open Scope string_scope.
Local Open Scope Z_scope.

Module Scenarios.
Import PyStr PyEff Systemctl Discovery Scale ScaleTheory Control Main RefHost.

(** The loaded instances of [worker] in the user scope. *)
Definition user_loaded (h : refhost) : list string := sc_loaded (rh_user h).

(** Run [scale_service("worker", n, user=True)] for each count in turn,
    recording the number of loaded instances after each (the test
    "can scale services"). *)
Fixpoint run_scales (ns : list Z) (h : refhost) : list nat :=
  match ns with
  | [] => []
  | n :: ns' =>
      let h' := w_host (snd (scale_service "worker" (PyInt n) true (init_world h))) in
      List.length (user_loaded h') :: run_scales ns' h'
  end.

Definition h_empty : refhost := worker_host [] [].

(** The repository's test [can scale services]: scaling to 1, 2, 4, 2, 0
    leaves 1, 2, 4, 2, 0 instances. *)
Example test_can_scale_services : run_scales [1; 2; 4; 2; 0] h_empty = [1; 2; 4; 2; 0]%nat.
Proof. vm_compute. reflexivity. Qed.

(** The hosts after scaling to 2, then [stop], then [start]. *)
Definition h_scaled2 : refhost := w_host (snd (scale_service "worker" (PyInt 2) true (init_world h_empty))).
Definition h_stopped : refhost := w_host (snd (control_units "stop" "worker" true (init_world h_scaled2))).
Definition h_started : refhost := w_host (snd (control_units "start" "worker" true (init_world h_stopped))).

(** The repository's test [can control services]: scale to 2,
    [control_units("stop")] stops both, [control_units("start")] starts
    both again through the enabled set. *)
Example test_can_control_services :
  user_loaded h_scaled2 = ["worker@1.service"; "worker@2.service"]
  /\ user_loaded h_stopped = []
  /\ user_loaded h_started = ["worker@1.service"; "worker@2.service"].
Proof. vm_compute. repeat split. Qed.

(** Instances 1 and 01 of [worker] running: the disable branch is taken with
    nothing to act on, [systemctl disable --quiet --now] fails on the
    reference host, and the program dies with [AttributeError]. *)
Definition h_dup : refhost := worker_host ["worker@1.service"; "worker@01.service"] [].

Example scale_duplicate_number_run :
  let r := scale_service "worker" (PyInt 1) true (init_world h_dup) in
  fst r = inl (AttributeError none_strip_msg)
  /\ last (w_calls (snd r)) = Some (systemctl_cmd true ++ ["disable"; "--quiet"; "--now"])%list.
Proof. vm_compute. split; reflexivity. Qed.

(** ** Witnesses *)

Lemma scale_converges_witness :
  0 <= 1 /\ 0 <= 3 /\
  (after_scale (Z.to_nat 1) (range_set 1) 3 = range_set 3
   /\ scale_plan (size (range_set 3)) (range_set 3) 3 = None).
Proof. split; [lia|]. split; [lia|]. apply (scale_converges 1 3); lia. Defined.

Lemma scale_reachable_contiguous_witness :
  scale_reachable (after_scale (size (∅ : gset Z)) ∅ 2)
  /\ after_scale (size (∅ : gset Z)) ∅ 2
     = range_set (Z.of_nat (size (after_scale (size (∅ : gset Z)) ∅ 2))).
Proof.
  assert (scale_reachable (after_scale (size (∅ : gset Z)) ∅ 2)) as Hr
    by (apply reach_scale; [apply reach_none | lia]).
  split; [exact Hr | apply (scale_reachable_contiguous _ Hr)].
Defined.

Lemma scale_plan_targets_witness :
  scale_plan 0 ∅ 3 = Some ("enable", {[1; 2; 3]})
  /\ ((("enable" = "disable") /\ ({[1; 2; 3]} : gset Z) ⊆ ∅ /\
       (forall i, i ∈ ({[1; 2; 3]} : gset Z) -> i < 1 \/ 3 < i))
      \/ ("enable" = "enable" /\ ({[1; 2; 3]} : gset Z) ## ∅ /\
          (forall i, i ∈ ({[1; 2; 3]} : gset Z) -> 1 <= i <= 3))).
Proof.
  assert (scale_plan 0 ∅ 3 = Some ("enable", {[1; 2; 3]})) as Hp by (vm_compute; reflexivity).
  split; [exact Hp | apply (scale_plan_targets _ _ _ _ _ Hp)].
Defined.

Lemma scale_plan_enable_nonempty_witness :
  (size (∅ : gset Z) <= 0)%nat /\ scale_plan 0 ∅ 3 = Some ("enable", {[1; 2; 3]})
  /\ ({[1; 2; 3]} : gset Z) <> ∅.
Proof.
  assert (scale_plan 0 ∅ 3 = Some ("enable", {[1; 2; 3]})) as Hp by (vm_compute; reflexivity).
  assert (size (∅ : gset Z) <= 0)%nat as Hs by (rewrite size_empty; lia).
  split; [exact Hs|]. split; [exact Hp|]. apply (scale_plan_enable_nonempty _ _ _ _ Hs Hp).
Defined.

Lemma scale_service_rejects_witness :
  (py_isinstance_int (PyInt (-1)) = false \/ py_int_value (PyInt (-1)) < 0)
  /\ scale_service "worker" (PyInt (-1)) true (init_world h_empty)
     = (inl (ValueError num_procs_msg), init_world h_empty).
Proof.
  assert (py_isinstance_int (PyInt (-1)) = false \/ py_int_value (PyInt (-1)) < 0) as Hv
    by (right; simpl; lia).
  split; [exact Hv | apply (scale_service_rejects _ _ _ _ Hv)].
Defined.

Lemma unit_number_unit_file_witness :
  char_in "@" "worker" = false /\ unit_number (unit_file "worker" 7) = inr 7.
Proof.
  assert (char_in "@" "worker" = false) as Hc by reflexivity.
  split; [exact Hc | apply (unit_number_unit_file _ _ Hc)].
Defined.

Definition w_discovered : world refhost := snd (get_active_units "worker" true (init_world h_empty)).

Lemma scale_service_calls_witness :
  0 <= 2 /\ get_active_units "worker" true (init_world h_empty) = (inr [], w_discovered)
  /\ sum_mapM unit_number [] = inr []
  /\ w_calls (snd (scale_service "worker" (PyInt 2) true (init_world h_empty))) =
     (w_calls w_discovered ++
      match scale_plan (List.length (@nil string)) (list_to_set []) 2 with
      | None => []
      | Some (cmd, todo) => [(systemctl_cmd true ++ action_args "worker" cmd todo)%list]
      end)%list.
Proof.
  assert (get_active_units "worker" true (init_world h_empty) = (inr [], w_discovered)) as Hg
    by (vm_compute; reflexivity).
  assert (sum_mapM unit_number [] = inr []) as Hn by reflexivity.
  split; [lia|]. split; [exact Hg|]. split; [exact Hn|].
  apply (scale_service_calls "worker" 2 true (init_world h_empty) w_discovered [] [] ltac:(lia) Hg Hn).
Defined.

Definition w_frob : world refhost := snd (systemctl ["frobnicate"] true false (init_world h_empty)).

Lemma systemctl_raises_witness :
  systemctl ["frobnicate"] true false (init_world h_empty)
  = (inl (AttributeError none_strip_msg), w_frob)
  /\ AttributeError none_strip_msg = AttributeError none_strip_msg.
Proof.
  assert (systemctl ["frobnicate"] true false (init_world h_empty)
          = (inl (AttributeError none_strip_msg), w_frob)) as Hs by (vm_compute; reflexivity).
  split; [exact Hs | apply (systemctl_raises _ _ _ _ _ _ Hs)].
Defined.

Definition scale_neg_args : cli_args := mk_args (Some Cscale) "worker" (-1) true "usage".

Lemma main_scale_negative_witness :
  a_cmd scale_neg_args = Some Cscale /\ a_num_procs scale_neg_args < 0
  /\ (main scale_neg_args (init_world h_empty) = (inl (ValueError num_procs_msg), init_world h_empty)
      /\ exit_status (fst (main scale_neg_args (init_world h_empty))) = 1).
Proof.
  assert (a_cmd scale_neg_args = Some Cscale) as Hc by reflexivity.
  assert (a_num_procs scale_neg_args < 0) as Hn by (simpl; lia).
  split; [exact Hc|]. split; [exact Hn|]. apply (main_scale_negative _ _ Hc Hn).
Defined.

Definition h_no_template : refhost := mk_refhost (mk_scope [] [] []) (mk_scope [] [] []) "/home/u".

Lemma get_active_units_no_unit_file_witness :
  host_run (systemctl_cmd true ++ list_unit_files_args "worker")%list (w_host (init_world h_no_template))
    = (0, EmptyString, EmptyString, h_no_template)
  /\ py_strip EmptyString = EmptyString
  /\ get_active_units "worker" true (init_world h_no_template) =
     (inl (UserError (no_unit_file_msg "worker")),
      after_query (init_world h_no_template) (list_unit_files_args "worker") true EmptyString h_no_template).
Proof.
  assert (host_run (systemctl_cmd true ++ list_unit_files_args "worker")%list
            (w_host (init_world h_no_template)) = (0, EmptyString, EmptyString, h_no_template)) as Hr
    by (vm_compute; reflexivity).
  assert (py_strip EmptyString = EmptyString) as Hs by reflexivity.
  split; [exact Hr|]. split; [exact Hs|]. apply (get_active_units_no_unit_file _ _ _ _ _ _ Hr Hs).
Defined.

Definition h_two : refhost := worker_host ["worker@2.service"; "worker@1.service"] [].
Definition out_files : string := lines ["worker@.service indirect enabled"].
Definition out_units : string :=
  lines ["worker@2.service loaded active running worker@2.service";
         "worker@1.service loaded active running worker@1.service"].

Lemma get_active_units_ok_witness :
  host_run (systemctl_cmd true ++ list_unit_files_args "worker")%list (w_host (init_world h_two))
    = (0, out_files, EmptyString, h_two)
  /\ py_strip out_files <> EmptyString
  /\ host_run (systemctl_cmd true ++ list_units_args "worker")%list h_two
    = (0, out_units, EmptyString, h_two)
  /\ mapM first_token (py_splitlines out_units) = Some ["worker@2.service"; "worker@1.service"]
  /\ get_active_units "worker" true (init_world h_two) =
     (inr (py_sorted ["worker@2.service"; "worker@1.service"]),
      after_query (after_query (init_world h_two) (list_unit_files_args "worker") true EmptyString h_two)
                  (list_units_args "worker") true EmptyString h_two).
Proof.
  assert (host_run (systemctl_cmd true ++ list_unit_files_args "worker")%list (w_host (init_world h_two))
    = (0, out_files, EmptyString, h_two)) as H1 by (vm_compute; reflexivity).
  assert (py_strip out_files <> EmptyString) as H2 by (vm_compute; discriminate).
  assert (host_run (systemctl_cmd true ++ list_units_args "worker")%list h_two
    = (0, out_units, EmptyString, h_two)) as H3 by (vm_compute; reflexivity).
  assert (mapM first_token (py_splitlines out_units) = Some ["worker@2.service"; "worker@1.service"])
    as H4 by (vm_compute; reflexivity).
  split; [exact H1|]. split; [exact H2|]. split; [exact H3|]. split; [exact H4|].
  apply (get_active_units_ok _ _ _ _ _ _ _ _ _ _ H1 H2 H3 H4).
Defined.

Definition h_crashed : refhost := worker_host [] ["worker@1.service"; "worker@2.service"].
Definition w_crashed : world refhost := snd (get_active_units "worker" true (init_world h_crashed)).

Lemma control_active_units_fallback_witness :
  get_active_units "worker" true (init_world h_crashed) = (inr [], w_crashed)
  /\ get_enabled_units "worker" true w_crashed = (inr ["worker@1.service"; "worker@2.service"], w_crashed)
  /\ w_calls (snd (control_active_units "stop" "worker" true (init_world h_crashed)))
     = (w_calls w_crashed ++ [(systemctl_cmd true ++ ["stop"; "worker@1.service"; "worker@2.service"])])%list.
Proof.
  assert (get_active_units "worker" true (init_world h_crashed) = (inr [], w_crashed)) as H1
    by (vm_compute; reflexivity).
  assert (get_enabled_units "worker" true w_crashed
          = (inr ["worker@1.service"; "worker@2.service"], w_crashed)) as H2 by (vm_compute; reflexivity).
  split; [exact H1|]. split; [exact H2|].
  apply (control_active_units_fallback _ _ _ _ _ _ _ H1 H2).
Defined.

Definition w_empty_disc : world refhost := snd (get_active_units "worker" true (init_world h_empty)).

Lemma control_active_units_none_witness :
  get_active_units "worker" true (init_world h_empty) = (inr [], w_empty_disc)
  /\ get_enabled_units "worker" true w_empty_disc = (inr [], w_empty_disc)
  /\ control_active_units "status" "worker" true (init_world h_empty)
     = (inr tt, mk_world (w_host w_empty_disc) (w_out w_empty_disc ++ [no_units_msg "worker"])
                         (w_err w_empty_disc) (w_calls w_empty_disc)).
Proof.
  assert (get_active_units "worker" true (init_world h_empty) = (inr [], w_empty_disc)) as H1
    by (vm_compute; reflexivity).
  assert (get_enabled_units "worker" true w_empty_disc = (inr [], w_empty_disc)) as H2
    by (vm_compute; reflexivity).
  split; [exact H1|]. split; [exact H2|]. apply (control_active_units_none _ _ _ _ _ H1 H2).
Defined.

Lemma control_units_enabled_witness :
  get_enabled_units "worker" true (init_world h_empty) = (inr [], init_world h_empty)
  /\ w_calls (snd (control_units "start" "worker" true (init_world h_empty)))
     = (w_calls (init_world h_empty) ++ [(systemctl_cmd true ++ ["start"])])%list.
Proof.
  assert (get_enabled_units "worker" true (init_world h_empty) = (inr [], init_world h_empty)) as H1
    by (vm_compute; reflexivity).
  split; [exact H1|]. apply (control_units_enabled _ _ _ _ _ H1).
Defined.

Definition w_two_disc : world refhost := snd (get_active_units "worker" true (init_world h_two)).

Lemma control_active_units_active_witness :
  get_active_units "worker" true (init_world h_two) = (inr ["worker@1.service"; "worker@2.service"], w_two_disc)
  /\ w_calls (snd (control_active_units "restart" "worker" true (init_world h_two)))
     = (w_calls w_two_disc ++ [(systemctl_cmd true ++ ["restart"; "worker@1.service"; "worker@2.service"])])%list.
Proof.
  assert (get_active_units "worker" true (init_world h_two)
          = (inr ["worker@1.service"; "worker@2.service"], w_two_disc)) as H1 by (vm_compute; reflexivity).
  split; [exact H1|]. apply (control_active_units_active _ _ _ _ _ _ _ H1).
Defined.

Lemma scale_plan_count_only_witness :
  Z.of_nat (size ({[1; 3]} : gset Z)) = 2 /\ ({[1; 3]} : gset Z) <> range_set 2
  /\ (scale_plan (size ({[1; 3]} : gset Z)) {[1; 3]} 2 = None
      /\ after_scale (size ({[1; 3]} : gset Z)) {[1; 3]} 2 = {[1; 3]}
      /\ after_scale (size ({[1; 3]} : gset Z)) {[1; 3]} 2 <> range_set 2).
Proof.
  assert (Z.of_nat (size ({[1; 3]} : gset Z)) = 2) as H1 by (vm_compute; reflexivity).
  assert (({[1; 3]} : gset Z) <> range_set 2) as H2
    by (intros E; assert (3 ∈ range_set 2) as H3 by (rewrite <- E; set_solver);
        unfold range_set in H3; rewrite elem_of_range_set in H3; lia).
  split; [exact H1|]. split; [exact H2|]. apply (scale_plan_count_only _ _ H1 H2).
Defined.

Lemma scale_plan_disable_all_witness :
  2 < Z.of_nat 3 /\ (forall i, i ∈ ({[5; 6; 7]} : gset Z) -> 2 < i)
  /\ (scale_plan 3 {[5; 6; 7]} 2 = Some ("disable", {[5; 6; 7]})
      /\ after_scale 3 {[5; 6; 7]} 2 = ∅).
Proof.
  assert (2 < Z.of_nat 3) as H1 by lia.
  assert (forall i, i ∈ ({[5; 6; 7]} : gset Z) -> 2 < i) as H2
    by (intros i Hi; rewrite !elem_of_union, !elem_of_singleton in Hi; lia).
  split; [exact H1|]. split; [exact H2|]. apply (scale_plan_disable_all _ _ _ H1 H2).
Defined.

Lemma action_args_string_order_witness :
  10 ∈ range_set 10 /\ 2 ∈ range_set 10 /\ 10 <> 2 /\ String.le (py_str_Z 10) (py_str_Z 2)
  /\ exists l1 l2 l3, action_args "worker" "enable" (range_set 10) =
       (["enable"; "--quiet"; "--now"] ++ l1 ++ ("worker" +:+ "@" +:+ py_str_Z 10) :: l2
        ++ ("worker" +:+ "@" +:+ py_str_Z 2) :: l3)%list.
Proof.
  assert (10 ∈ range_set 10) as H1 by (unfold range_set; rewrite elem_of_range_set; lia).
  assert (2 ∈ range_set 10) as H2 by (unfold range_set; rewrite elem_of_range_set; lia).
  assert (10 <> 2) as H3 by lia.
  assert (String.le (py_str_Z 10) (py_str_Z 2)) as H4 by (vm_compute; reflexivity).
  split; [exact H1|]. split; [exact H2|]. split; [exact H3|]. split; [exact H4|].
  apply (action_args_string_order _ _ _ _ _ H1 H2 H3 H4).
Defined.

Lemma scale_plan_disable_nothing_witness :
  1 < Z.of_nat 2 /\ ({[1]} : gset Z) ⊆ wanted_unit_numbers 1
  /\ (scale_plan 2 {[1]} 1 = Some ("disable", ∅)
      /\ action_args "worker" "disable" ∅ = ["disable"; "--quiet"; "--now"]).
Proof.
  assert (1 < Z.of_nat 2) as H1 by lia.
  assert (({[1]} : gset Z) ⊆ wanted_unit_numbers 1) as H2
    by (unfold wanted_unit_numbers; range_set_solver).
  split; [exact H1|]. split; [exact H2|]. apply (scale_plan_disable_nothing _ _ _ _ H1 H2).
Defined.

Lemma scale_service_reconciles_witness :
  char_in "@" "worker" = false /\ 0 <= 2 /\ 0 <= 4 /\ NoDup [1; 2]
  /\ list_to_set [1; 2] = range_set 2
  /\ get_active_units "worker" true (init_world h_two)
     = (inr (map (unit_file "worker") [1; 2]), w_two_disc)
  /\ ((exists cmd todo,
        w_calls (snd (scale_service "worker" (PyInt 4) true (init_world h_two)))
        = (w_calls w_two_disc ++ [(systemctl_cmd true ++ action_args "worker" cmd todo)%list])%list
        /\ apply_action cmd todo (range_set 2) = range_set 4)
      \/ (2 = 4 /\ w_calls (snd (scale_service "worker" (PyInt 4) true (init_world h_two)))
                   = w_calls w_two_disc)).
Proof.
  assert (char_in "@" "worker" = false) as H1 by reflexivity.
  assert (NoDup [1; 2]) as H2 by (repeat constructor; set_solver).
  assert (list_to_set [1; 2] = range_set 2) as H3
    by (unfold range_set; apply set_eq; intros x;
        rewrite elem_of_range_set, elem_of_list_to_set, !elem_of_cons, elem_of_nil; lia).
  assert (get_active_units "worker" true (init_world h_two)
          = (inr (map (unit_file "worker") [1; 2]), w_two_disc)) as H4 by (vm_compute; reflexivity).
  split; [exact H1|]. split; [lia|]. split; [lia|]. split; [exact H2|]. split; [exact H3|].
  split; [exact H4|]. apply (scale_service_reconciles _ 2 4 _ _ _ _ H1 ltac:(lia) ltac:(lia) H2 H3 H4).
Defined.

End Scenarios.
